(** * HotelHarvest: a shallow embedding of the crawler in [main.py] and the
    image downloader in [images.py].

    Strings are Stdlib [string]s (ASCII); Python sets of strings are stdpp
    [gset string]; Python dicts with insertion order are association lists.
    A Python call that may raise is modelled as an [option]: [None] is the
    raised exception. *)

From Stdlib Require Import String Ascii QArith.
From stdpp Require Import base gmap strings list.

Open Scope string_scope.

(* ------------------------------------------------------------------ *)
(** ** String helpers (Python [str] methods on ASCII text) *)
(* ------------------------------------------------------------------ *)

Module Str.

Definition lower_char (c : ascii) : ascii :=
  let n := nat_of_ascii c in
  if (65 <=? n)%nat && (n <=? 90)%nat then ascii_of_nat (n + 32) else c.

(** [s.lower()] *)
Fixpoint lower (s : string) : string :=
  match s with
  | EmptyString => EmptyString
  | String c r => String (lower_char c) (lower r)
  end.

(** [s.startswith(p)] *)
Definition startswith (p s : string) : bool := String.prefix p s.

(** [sub in s] *)
Fixpoint contains (sub s : string) : bool :=
  String.prefix sub s ||
  match s with
  | EmptyString => false
  | String _ r => contains sub r
  end.

(** [s.endswith(suf)] *)
Definition endswith (suf s : string) : bool :=
  let n := String.length s in
  let m := String.length suf in
  (m <=? n)%nat && String.eqb (String.substring (n - m) m s) suf.

(** [c in s] for a single character *)
Definition has_char (c : ascii) (s : string) : bool := contains (String c EmptyString) s.

(** [s.find(c)], [None] for -1 *)
Fixpoint find (c : ascii) (s : string) : option nat :=
  match s with
  | EmptyString => None
  | String x r => if Ascii.eqb x c then Some 0%nat else S <$> find c r
  end.

(** [s.rfind(c)], [None] for -1 *)
Fixpoint rfind (c : ascii) (s : string) : option nat :=
  match s with
  | EmptyString => None
  | String x r =>
      match rfind c r with
      | Some i => Some (S i)
      | None => if Ascii.eqb x c then Some 0%nat else None
      end
  end.

(** [s[:i]] and [s[i:]] *)
Definition take (i : nat) (s : string) : string := String.substring 0 i s.
Definition drop (i : nat) (s : string) : string :=
  String.substring i (String.length s - i) s.

(** [s.split(c, 1)] when [c in s] *)
Definition split_once (c : ascii) (s : string) : option (string * string) :=
  match find c s with
  | Some i => Some (take i s, drop (S i) s)
  | None => None
  end.

(** [s.split(c)]: always at least one piece *)
Fixpoint split (c : ascii) (s : string) : list string :=
  match s with
  | EmptyString => [EmptyString]
  | String x r =>
      match split c r with
      | [] => [String x EmptyString]
      | p :: ps => if Ascii.eqb x c then EmptyString :: p :: ps else String x p :: ps
      end
  end.

(** [s.rstrip(c)] for a single character [c] *)
Fixpoint rstrip (c : ascii) (s : string) : string :=
  match s with
  | EmptyString => EmptyString
  | String x r =>
      let r' := rstrip c r in
      match r' with
      | EmptyString => if Ascii.eqb x c then EmptyString else String x EmptyString
      | _ => String x r'
      end
  end.

(** [sep.join(l)] *)
Definition join (sep : string) (l : list string) : string := String.concat sep l.

(** [any(t in s for t in ts)] *)
Definition any_in (ts : list string) (s : string) : bool :=
  existsb (fun t => contains t s) ts.

End Str.

(* ------------------------------------------------------------------ *)
(** ** [urllib.parse.urlparse] *)
(* ------------------------------------------------------------------ *)

Record ParseResult := {
  scheme : string;
  netloc : string;
  path : string;
  params : string;
  query : string;
  fragment : string
}.

Module UrlParse.

(** [scheme_chars] of [urllib.parse] *)
Definition is_scheme_char (c : ascii) : bool :=
  let n := nat_of_ascii c in
  ((97 <=? n)%nat && (n <=? 122)%nat) || ((65 <=? n)%nat && (n <=? 90)%nat) ||
  ((48 <=? n)%nat && (n <=? 57)%nat) ||
  Ascii.eqb c "+"%char || Ascii.eqb c "-"%char || Ascii.eqb c "."%char.

Definition is_alpha (c : ascii) : bool :=
  let n := nat_of_ascii c in
  ((97 <=? n)%nat && (n <=? 122)%nat) || ((65 <=? n)%nat && (n <=? 90)%nat).

Fixpoint all_chars (p : ascii -> bool) (s : string) : bool :=
  match s with
  | EmptyString => true
  | String c r => p c && all_chars p r
  end.

(** [_UNSAFE_URL_BYTES_TO_REMOVE] (tab, CR, LF) are deleted and leading
    C0 control characters and spaces are stripped. *)
Fixpoint remove_unsafe (s : string) : string :=
  match s with
  | EmptyString => EmptyString
  | String c r =>
      if Ascii.eqb c "009"%char || Ascii.eqb c "010"%char || Ascii.eqb c "013"%char
      then remove_unsafe r else String c (remove_unsafe r)
  end.

Fixpoint lstrip_c0 (s : string) : string :=
  match s with
  | EmptyString => EmptyString
  | String c r => if (nat_of_ascii c <=? 32)%nat then lstrip_c0 r else s
  end.

(** The scheme split of [urlsplit]. *)
Definition split_scheme (url : string) : string * string :=
  match Str.find ":"%char url, url with
  | Some (S _ as i), String c0 _ =>
      if is_alpha c0 && all_chars is_scheme_char (Str.take i url)
      then (Str.lower (Str.take i url), Str.drop (S i) url)
      else (EmptyString, url)
  | _, _ => (EmptyString, url)
  end.

(** [_splitnetloc(url, 2)]: the netloc ends at the first of '/', '?', '#'. *)
Fixpoint netloc_end (s : string) : nat :=
  match s with
  | EmptyString => 0
  | String c r =>
      if Ascii.eqb c "/"%char || Ascii.eqb c "?"%char || Ascii.eqb c "#"%char
      then 0 else S (netloc_end r)
  end.

Definition split_netloc (rest : string) : string * string :=
  let body := Str.drop 2 rest in
  let d := netloc_end body in
  (Str.take d body, Str.drop d body).

(** The bracket check of [urlsplit]: [ValueError("Invalid IPv6 URL")].
    (The later check that a bracketed host is an IP address is not
    modelled; the model raises on a subset of the inputs Python rejects.) *)
Definition bad_brackets (n : string) : bool :=
  (Str.has_char "["%char n && negb (Str.has_char "]"%char n)) ||
  (Str.has_char "]"%char n && negb (Str.has_char "["%char n)).

(** [urlsplit] *)
Definition urlsplit (url0 : string) : option (string * string * string * string * string) :=
  let url1 := remove_unsafe (lstrip_c0 url0) in
  let '(sch, url2) := split_scheme url1 in
  let '(net, url3) :=
    if Str.startswith "//" url2 then split_netloc url2 else (EmptyString, url2) in
  if bad_brackets net then None else
  let '(url4, frag) :=
    match Str.split_once "#"%char url3 with Some p => p | None => (url3, EmptyString) end in
  let '(url5, q) :=
    match Str.split_once "?"%char url4 with Some p => p | None => (url4, EmptyString) end in
  Some (sch, net, url5, q, frag).

Definition uses_params : list string :=
  [""; "ftp"; "hdl"; "prospero"; "http"; "imap"; "https"; "shttp"; "rtsp";
   "rtsps"; "rtspu"; "sip"; "sips"; "mms"; "sftp"; "tel"].

Definition find_from (c : ascii) (i : nat) (s : string) : option nat :=
  match Str.find c (Str.drop i s) with
  | Some j => Some (i + j)%nat
  | None => None
  end.

(** [_splitparams] *)
Definition splitparams (url : string) : string * string :=
  match Str.rfind "/"%char url with
  | Some j =>
      match find_from ";"%char j url with
      | Some i => (Str.take i url, Str.drop (S i) url)
      | None => (url, EmptyString)
      end
  | None =>
      match Str.find ";"%char url with
      | Some i => (Str.take i url, Str.drop (S i) url)
      | None => (url, EmptyString)
      end
  end.

(** [urlparse]; [None] is the [ValueError] it raises. *)
Definition urlparse (url : string) : option ParseResult :=
  match urlsplit url with
  | None => None
  | Some (sch, net, p, q, frag) =>
      let '(p', prm) :=
        if existsb (String.eqb sch) uses_params && Str.has_char ";"%char p
        then splitparams p else (p, EmptyString) in
      Some {| scheme := sch; netloc := net; path := p'; params := prm;
              query := q; fragment := frag |}
  end.

End UrlParse.

Export UrlParse (urlparse).

(* ------------------------------------------------------------------ *)
(** ** [tldextract.extract] *)
(* ------------------------------------------------------------------ *)

Module Tld.

(** A fragment of the public suffix list that [tldextract] consults.
    A host under a suffix missing here (such as com.au) splits
    differently from [tldextract]; the concrete hosts used below
    end in suffixes that are listed. *)
Definition public_suffixes : list string :=
  ["com"; "net"; "org"; "io"; "fr"; "de"; "it"; "es"; "uk"; "co.uk"; "jp"; "co.jp"].

(** The host part of a netloc: user info before '@' and the port are
    dropped, the host is lower-cased. *)
Definition host_of (net : string) : string :=
  let h := match Str.rfind "@"%char net with Some i => Str.drop (S i) net | None => net end in
  let h := match Str.find ":"%char h with Some i => Str.take i h | None => h end in
  Str.lower h.

(** The longest public suffix: the first index [i] such that the labels
    from [i] on form a listed suffix. *)
Fixpoint suffix_index (i : nat) (labels : list string) : option nat :=
  match labels with
  | [] => None
  | _ :: rest =>
      if existsb (String.eqb (Str.join "." labels)) public_suffixes then Some i
      else suffix_index (S i) rest
  end.

(** [(subdomain, domain, suffix)] of a host *)
Definition extract_host (host : string) : string * string * string :=
  let labels := Str.split "."%char host in
  match suffix_index 0 labels with
  | Some i =>
      (Str.join "." (take (i - 1) labels),
       (if (i =? 0)%nat then "" else default "" (labels !! (i - 1)%nat)),
       Str.join "." (drop i labels))
  | None =>
      (Str.join "." (take (length labels - 1) labels), default "" (last labels), "")
  end.

Definition extract (url : string) : string * string * string :=
  match urlparse url with
  | Some p => extract_host (host_of (netloc p))
  | None => ("", "", "")
  end.

(** [f"{extracted.domain}.{extracted.suffix}"] *)
Definition root_of (url : string) : string :=
  let '(_, d, s) := extract url in d ++ "." ++ s.

Definition subdomain_of (url : string) : string :=
  let '(sub, _, _) := extract url in sub.

End Tld.

(* ------------------------------------------------------------------ *)
(** ** [WebsiteScraper]: scope classification and normalisation *)
(* ------------------------------------------------------------------ *)

(** The constructor arguments of [WebsiteScraper]. *)
Record ScraperConfig := {
  base_url : string;
  max_booking_urls : nat
}.

Module Scraper.

Section Methods.
Variable cfg : ScraperConfig.

Definition root_domain : string := Tld.root_of (base_url cfg).

Definition potential_booking_domains : list string :=
  ["booking"; "reserve"; "reservation"; "book"].

Definition file_extensions : list string :=
  [".pdf"; ".jpg"; ".jpeg"; ".png"; ".gif"; ".svg";
   ".css"; ".js"; ".ico"; ".xml"; ".zip"; ".doc"; ".docx"].

Definition volatile_params : list string :=
  ["lang"; "language"; "currency"; "nsid"; "sessionid"].

(** [is_same_site] *)
Definition is_same_site (url : string) : option bool :=
  p ← urlparse url;
  if String.eqb (netloc p) "" then Some false
  else Some (String.eqb (Tld.root_of url) root_domain).

(** [is_valid_url] of [main.py]: no [try], so a [ValueError] of
    [urlparse] reaches the caller. *)
Definition is_valid_url (url : string) : option bool :=
  p ← urlparse url;
  if String.eqb (netloc p) "" then Some false else
  same ← is_same_site url;
  if negb same then
    Some (Str.any_in potential_booking_domains (Str.lower (netloc p)) &&
          Str.contains root_domain (Str.lower (netloc p)))
  else if existsb (fun ext => Str.endswith ext (Str.lower (path p))) file_extensions
  then Some false
  else Some true.

(** [is_booking_url] *)
Definition is_booking_url (url : string) : option bool :=
  p ← urlparse url;
  Some (Str.any_in potential_booking_domains (Str.lower (netloc p)) ||
        Str.any_in ["book"; "reserve"; "reservation"] (Str.lower (path p)) ||
        (negb (String.eqb (query p) "") &&
         Str.any_in ["book"; "reserve"; "reservation"] (Str.lower (query p)))).

(** [query_params[key] = value] on an insertion-ordered dict *)
Fixpoint dict_set (k v : string) (d : list (string * string)) : list (string * string) :=
  match d with
  | [] => [(k, v)]
  | (k', v') :: d' => if String.eqb k k' then (k, v) :: d' else (k', v') :: dict_set k v d'
  end.

(** One iteration of the loop over [parsed.query.split('&')] *)
Definition strip_step (d : list (string * string)) (param : string) : list (string * string) :=
  match Str.split_once "="%char param with
  | Some (key, value) =>
      if existsb (String.eqb (Str.lower key)) volatile_params then d
      else dict_set key value d
  | None => d
  end.

Definition strip_params (params : list string) : list (string * string) :=
  fold_left strip_step params [].

Definition render_params (d : list (string * string)) : string :=
  Str.join "&" (map (fun '(k, v) => k ++ "=" ++ v) d).

(** [normalize_url] *)
Definition normalize_url (url : string) : option string :=
  p ← urlparse url;
  let normalized := scheme p ++ "://" ++ netloc p ++ path p in
  if String.eqb (query p) "" then Some (Str.rstrip "/"%char normalized) else
  is_booking_url url ≫= fun (b : bool) =>
  let normalized' : string :=
    if b then
      match strip_params (Str.split "&"%char (query p)) with
      | [] => normalized
      | d => normalized ++ "?" ++ render_params d
      end
    else normalized ++ "?" ++ query p in
  Some (Str.rstrip "/"%char normalized').

End Methods.

End Scraper.

(* ------------------------------------------------------------------ *)
(** ** [ImageDownloader.is_valid_url] *)
(* ------------------------------------------------------------------ *)

Module ImgUrl.

(** [os.path.splitext(p)[1]] on POSIX paths *)
Definition splitext_ext (p : string) : string :=
  let sep := match Str.rfind "/"%char p with Some i => Z.of_nat i | None => (-1)%Z end in
  match Str.rfind "."%char p with
  | Some d =>
      if (sep <? Z.of_nat d)%Z then
        (* the extension exists unless the base name is only leading dots *)
        let fname := Str.take (d - Z.to_nat (sep + 1)) (Str.drop (Z.to_nat (sep + 1)) p) in
        if UrlParse.all_chars (fun c => Ascii.eqb c "."%char) fname then ""
        else Str.drop d p
      else ""
  | None => ""
  end.

Definition cdn_patterns : list string :=
  ["cloudfront.net"; "akamaized.net"; "cloudinary.com"; "imgix.net"; "amazonaws.com"].

Definition image_extensions : list string := [".jpg"; ".jpeg"; ".png"; ".gif"; ".webp"].

(** [ImageDownloader.is_valid_url]; the [try/except] turns any error into
    [False], so the result is a plain [bool]. *)
Definition is_valid_url (domain : string) (url : string) : bool :=
  match urlparse url with
  | None => false
  | Some p =>
      if String.eqb (netloc p) "" then false
      else if String.eqb (netloc p) domain then true
      else
        let root := Str.join "." (let l := Str.split "."%char domain in drop (length l - 2) l) in
        if Str.contains root (netloc p) then true
        else if Str.any_in cdn_patterns (netloc p) then
          existsb (String.eqb (Str.lower (splitext_ext (path p)))) image_extensions
        else false
  end.

End ImgUrl.

(* ------------------------------------------------------------------ *)
(** ** [urljoin] *)
(* ------------------------------------------------------------------ *)

(** [urljoin(base, url)]: an absolute URL is returned as it is; a
    scheme-relative, root-relative or path-relative reference is resolved
    against the base (dot segments are not modelled). [None] is the
    [ValueError] of [urlparse]. *)
Definition urljoin (base u : string) : option string :=
  b ← urlparse base;
  p ← urlparse u;
  if negb (String.eqb (scheme p) "") && negb (String.eqb (netloc p) "") then Some u
  else if Str.startswith "//" u then Some (scheme b ++ ":" ++ u)
  else if Str.startswith "/" u then Some (scheme b ++ "://" ++ netloc b ++ u)
  else if String.eqb u "" then Some base
  else
    let dir := match Str.rfind "/"%char (path b) with
               | Some i => Str.take (S i) (path b) | None => "/" end in
    Some (scheme b ++ "://" ++ netloc b ++ dir ++ u).

(* ------------------------------------------------------------------ *)
(** ** [ImageDownloader]: network, state and the download paths *)
(* ------------------------------------------------------------------ *)

(** An HTTP response as the downloader reads it. *)
Record Response := {
  status_ok : bool;                (** [raise_for_status()] passes *)
  content_type : string;           (** [headers.get('Content-Type', '')] *)
  content_length : option Z;       (** [headers.get('Content-Length')] *)
  content : list Byte.byte;        (** [response.content] *)
  image_size : option (Z * Z)      (** [Image.open(...).size]; [None]: not decodable *)
}.

(** The outcome of one request: a [RequestException] or a response. *)
Inductive Outcome :=
| Timeout
| ConnectionError
| Ok (r : Response).

(** The constructor arguments of [ImageDownloader]. *)
Record ImgConfig := {
  img_base_url : string;
  min_width : Z;
  min_height : Z;
  min_size_kb : Z;
  max_pages : nat
}.

(** The attributes of [ImageDownloader] that the crawl updates, and the
    observable effects: files written (newest first), requests made per
    URL, and the [time.sleep] calls of the retry loop (newest first). *)
Record DlState := mkDl {
  dl_visited : gset string;
  dl_image_urls : gset string;
  dl_count : nat;
  dl_files : list (string * list Byte.byte);
  dl_reqs : gmap string nat;
  dl_sleeps : list Z;
  dl_priority_pages : list string
}.

Definition dl_init : DlState := mkDl ∅ ∅ 0 [] ∅ [] [].

(** [str(n)] for a non-negative integer *)
Fixpoint dec_string (fuel : nat) (n : Z) (acc : string) : string :=
  match fuel with
  | O => acc
  | S f =>
      let d := String (ascii_of_nat (48 + Z.to_nat (n mod 10))) EmptyString in
      if (n <? 10)%Z then d ++ acc else dec_string f (n / 10) (d ++ acc)
  end.

Definition str_of_Z (n : Z) : string := dec_string 20 n "".

(** [os.path.basename(p)] *)
Definition basename (p : string) : string :=
  match Str.rfind "/"%char p with Some i => Str.drop (S i) p | None => p end.

(** [len(content) / 1024 < min_size_kb]: the true division by 1024 is
    exact in binary floating point, so it is computed in [Q]. *)
Definition below_min_kb (len : nat) (min_kb : Z) : bool :=
  negb (Qle_bool (inject_Z min_kb) (inject_Z (Z.of_nat len) / inject_Z 1024)).

Module Img.

Section Pipeline.

Variable cfg : ImgConfig.
(** The responses the network gives to successive requests for a URL
    (the last one repeats). *)
Variable net : string -> list Outcome.
(** Python's [hash(str)] (salted per process). *)
Variable py_hash : string -> Z.
(** [hashlib.md5(data).hexdigest()] *)
Variable md5_hex : list Byte.byte -> string.

Definition domain : string := default "" (netloc <$> urlparse (img_base_url cfg)).

(** One [requests.get] / [requests.head] of [url]. *)
Definition request (st : DlState) (url : string) : Outcome * DlState :=
  let n := default 0%nat (dl_reqs st !! url) in
  let o := match net url with
           | [] => Timeout
           | o0 :: _ => nth n (net url) (default o0 (last (net url)))
           end in
  (o, mkDl (dl_visited st) (dl_image_urls st) (dl_count st) (dl_files st)
           (<[url := S n]> (dl_reqs st)) (dl_sleeps st) (dl_priority_pages st)).

Definition write_file (st : DlState) (name : string) (data : list Byte.byte) : DlState :=
  mkDl (dl_visited st) (dl_image_urls st) (S (dl_count st)) ((name, data) :: dl_files st)
       (dl_reqs st) (dl_sleeps st) (dl_priority_pages st).

(** [_download_image] (the path the crawl uses): one GET, the content
    type, size and dimension checks, then the file is written. Every
    exception ends the call with the state as it is. *)
Definition _download_image (st : DlState) (url : string) : DlState :=
  let '(o, st) := request st url in
  match o with
  | Timeout | ConnectionError => st
  | Ok r =>
      if negb (status_ok r) then st
      else if negb (Str.startswith "image/" (content_type r)) then st
      else if below_min_kb (length (content r)) (min_size_kb cfg) then st
      else match image_size r with
           | None => st
           | Some (w, h) =>
               if (w <? min_width cfg)%Z || (h <? min_height cfg)%Z then st
               else match urlparse url with
                    | None => st
                    | Some p =>
                        let filename := basename (path p) in
                        let filename :=
                          if String.eqb filename "" || negb (Str.has_char "."%char filename)
                          then "image_" ++ str_of_Z (py_hash url mod 10000) ++ ".jpg"
                          else filename in
                        write_file st filename (content r)
                    end
           end
  end.

(** [_download_images]: every collected URL is handed to
    [_download_image] (the pool's tasks touch disjoint request counters
    and are composed here in the set's iteration order), then the set is
    cleared. *)
Definition _download_images (st : DlState) : DlState :=
  let st' := fold_left _download_image (elements (dl_image_urls st)) st in
  mkDl (dl_visited st') ∅ (dl_count st') (dl_files st') (dl_reqs st')
       (dl_sleeps st') (dl_priority_pages st').

(** [get_image_info]: [(is_valid, content_type, width, height, size)];
    every exception gives [(False, "", 0, 0, 0)]. *)
Definition get_image_info (st : DlState) (img_url : string)
  : (bool * string * Z * Z * Z) * DlState :=
  let fail := (false, "", 0%Z, 0%Z, 0%Z) in
  let '(ho, st) := request st img_url in
  match ho with
  | Timeout | ConnectionError => (fail, st)
  | Ok head =>
      let ct := content_type head in
      if negb (Str.startswith "image/" ct) then ((false, ct, 0%Z, 0%Z, 0%Z), st) else
      let cl := default 0%Z (content_length head) in
      if (0 <? cl)%Z && (cl <? min_size_kb cfg * 1024)%Z then ((false, ct, 0%Z, 0%Z, cl), st) else
      let '(go, st) := request st img_url in
      match go with
      | Timeout | ConnectionError => (fail, st)
      | Ok r =>
          let size := Z.of_nat (length (content r)) in
          if (size <? min_size_kb cfg * 1024)%Z then ((false, ct, 0%Z, 0%Z, size), st) else
          match image_size r with
          | None => (fail, st)
          | Some (w, h) =>
              if (w <? min_width cfg)%Z || (h <? min_height cfg)%Z
              then ((false, ct, w, h, size), st)
              else ((true, ct, w, h, size), st)
          end
      end
  end.

Definition add_image_url (st : DlState) (u : string) : DlState :=
  mkDl (dl_visited st) ({[u]} ∪ dl_image_urls st) (dl_count st) (dl_files st)
       (dl_reqs st) (dl_sleeps st) (dl_priority_pages st).

Definition add_sleep (st : DlState) (t : Z) : DlState :=
  mkDl (dl_visited st) (dl_image_urls st) (dl_count st) (dl_files st)
       (dl_reqs st) (t :: dl_sleeps st) (dl_priority_pages st).

(** How one pass of the body of the retry loop ends. *)
Inductive AttemptEnd :=
| Returned (b : bool)   (** a [return] statement *)
| Retryable.            (** a [RequestException] from the image GET *)

(** One pass of the body of [for attempt in range(max_retries)] in
    [download_image]; it also gives back [img_url] as reassigned. *)
Definition download_attempt (st : DlState) (img_url : string)
  : AttemptEnd * string * DlState :=
  match urljoin (img_base_url cfg) img_url with
  | None => (Returned false, img_url, st)
  | Some img_url =>
      let '((is_valid, ct, _, _, _), st) := get_image_info st img_url in
      if negb is_valid then (Returned false, img_url, st) else
      let '(o, st) := request st img_url in
      match o with
      | Timeout | ConnectionError => (Retryable, img_url, st)
      | Ok r =>
          let img_data := content r in
          let img_hash := md5_hex img_data in
          if bool_decide (img_hash ∈ dl_image_urls st) then (Returned false, img_url, st) else
          let st := add_image_url st img_hash in
          match urlparse img_url with
          | None => (Returned false, img_url, st)
          | Some p =>
              let img_filename := basename (path p) in
              let img_filename :=
                if String.eqb img_filename "" || negb (Str.has_char "."%char img_filename)
                then img_hash ++ "." ++ default "" (last (Str.split "/"%char ct))
                else img_filename in
              (Returned true, img_url, write_file st img_filename img_data)
          end
      end
  end.

(** The retry loop: [attempt] counts up from 0, [left] passes remain.
    [None] is the implicit [return None] after the loop. *)
Fixpoint retry_loop (max_retries attempt left : nat) (st : DlState) (img_url : string)
  : option bool * DlState :=
  match left with
  | O => (None, st)
  | S left' =>
      match download_attempt st img_url with
      | (Returned b, _, st') => (Some b, st')
      | (Retryable, img_url', st') =>
          if (attempt <? max_retries - 1)%nat
          then retry_loop max_retries (S attempt) left' (add_sleep st' (2 ^ Z.of_nat attempt)%Z) img_url'
          else (Some false, st')
      end
  end.

(** [download_image(img_url, max_retries=3)] *)
Definition download_image (st : DlState) (img_url : string) (max_retries : nat)
  : option bool * DlState :=
  retry_loop max_retries 0 max_retries st img_url.

(** *** The image crawl *)

(** An [<img>] tag: [src], [width], [height] and [data-src]. *)
Record ImgTag := {
  tag_src : option string;
  tag_width : option string;
  tag_height : option string;
  tag_data_src : option string
}.

(** A fetched page as [_process_url] reads it: its [<img>] tags, the
    [style] attributes of its elements, and its anchors as
    [(href, link text)]. *)
Record ImgPage := {
  pg_imgs : list ImgTag;
  pg_styles : list string;
  pg_anchors : list (option string * string)
}.

(** The pages of the site: [None] when the GET raises or
    [raise_for_status] fails. *)
Variable web : string -> option ImgPage.
(** [re.search(r'background-image:\s*url\(...\)', style).group(1)] *)
Variable bg_match : string -> option string.

(** Python truthiness of an optional string. *)
Definition truthy (o : option string) : option string :=
  match o with Some s => if String.eqb s "" then None else Some s | None => None end.

Definition is_digit (c : ascii) : bool :=
  (48 <=? nat_of_ascii c)%nat && (nat_of_ascii c <=? 57)%nat.

Fixpoint digits_value (s : string) (acc : Z) : Z :=
  match s with
  | EmptyString => acc
  | String c r => digits_value r (acc * 10 + Z.of_nat (nat_of_ascii c - 48))%Z
  end.

(** The characters [int()] strips from both ends of its argument, the
    characters of a string read as Latin-1 code points: tab to carriage
    return, the separators 0x1c to 0x1f, the space, NEL (0x85) and the
    no-break space (0xa0). *)
Definition int_space (c : ascii) : bool :=
  let n := nat_of_ascii c in
  ((9 <=? n)%nat && (n <=? 13)%nat) || ((28 <=? n)%nat && (n <=? 32)%nat) ||
  (n =? 133)%nat || (n =? 160)%nat.

Fixpoint lstrip_by (f : ascii -> bool) (s : string) : string :=
  match s with
  | EmptyString => EmptyString
  | String c r => if f c then lstrip_by f r else s
  end.

Fixpoint rstrip_by (f : ascii -> bool) (s : string) : string :=
  match s with
  | EmptyString => EmptyString
  | String x r =>
      match rstrip_by f r with
      | EmptyString => if f x then EmptyString else String x EmptyString
      | r' => String x r'
      end
  end.

(** The rest of a digit string after a digit: digits, each ['_'] followed
    by a digit. *)
Fixpoint digits_tail_ok (s : string) : bool :=
  match s with
  | EmptyString => true
  | String c r =>
      if is_digit c then digits_tail_ok r
      else if Ascii.eqb c "_"%char then
        match r with
        | String d r' => is_digit d && digits_tail_ok r'
        | EmptyString => false
        end
      else false
  end.

Fixpoint drop_underscores (s : string) : string :=
  match s with
  | EmptyString => EmptyString
  | String c r => if Ascii.eqb c "_"%char then drop_underscores r else String c (drop_underscores r)
  end.

(** Decimal digits with single underscores between them. *)
Definition py_digits (s : string) : option Z :=
  match s with
  | String c r =>
      if is_digit c && digits_tail_ok r then Some (digits_value (drop_underscores s) 0)
      else None
  | EmptyString => None
  end.

(** [int(s)] on an attribute value: surrounding whitespace, an optional
    sign and decimal digits with single underscores between them;
    anything else raises [ValueError] ([None]). *)
Definition py_int (s : string) : option Z :=
  let t := rstrip_by int_space (lstrip_by int_space s) in
  match t with
  | String "-"%char r => z ← py_digits r; Some (- z)%Z
  | String "+"%char r => py_digits r
  | _ => py_digits t
  end.

(** A block of Python statements inside a [try]: [inl st] is an
    exception raised in state [st], [inr st] normal completion. *)
Definition Exc := (DlState + DlState)%type.

Fixpoint for_each {A} (f : DlState -> A -> Exc) (l : list A) (st : DlState) : Exc :=
  match l with
  | [] => inr st
  | x :: l' => match f st x with inl st' => inl st' | inr st' => for_each f l' st' end
  end.

(** [width and height and int(width) < 100 and int(height) < 100] *)
Definition small_icon (img : ImgTag) : option bool :=
  match truthy (tag_width img), truthy (tag_height img) with
  | Some w, Some h =>
      wi ← py_int w;
      if (wi <? 100)%Z then (hi ← py_int h; Some (hi <? 100)%Z) else Some false
  | _, _ => Some false
  end.

(** The body of [for img in soup.find_all('img')] in [_process_url]. *)
Definition img_step (url : string) (st : DlState) (img : ImgTag) : Exc :=
  match truthy (tag_src img) with
  | None => inr st
  | Some img_url =>
      match small_icon img with
      | None => inl st
      | Some true => inr st
      | Some false =>
          if Str.any_in ["icon"; "logo"; "button"; "bg-"; "background"] (Str.lower img_url)
          then inr st else
          match urljoin url img_url with
          | None => inl st
          | Some a =>
              let st := add_image_url st a in
              match truthy (tag_data_src img) with
              | None => inr st
              | Some ds => match urljoin url ds with
                           | None => inl st
                           | Some a' => inr (add_image_url st a')
                           end
              end
          end
      end
  end.

(** The body of the loop over the elements with a [style]. *)
Definition style_step (url : string) (st : DlState) (style : string) : Exc :=
  if Str.contains "background-image" style then
    match bg_match style with
    | None => inr st
    | Some bg => match urljoin url bg with None => inl st | Some a => inr (add_image_url st a) end
    end
  else inr st.

Definition link_keywords : list string :=
  ["room"; "suite"; "accommodation"; "stay"; "lodging"; "facility"; "amenity";
   "service"; "spa"; "restaurant"; "dining"; "gallery"; "photo"; "image"; "tour"].

Definition is_keyword_link (keywords : list string) (href text : string) : bool :=
  existsb (fun k => Str.contains k text || Str.contains k (Str.lower href)) keywords.

Definition mark_visited (st : DlState) (url : string) : DlState :=
  mkDl ({[url]} ∪ dl_visited st) (dl_image_urls st) (dl_count st) (dl_files st)
       (dl_reqs st) (dl_sleeps st) (dl_priority_pages st).

(** [_process_url(url, is_priority)]; [fuel] bounds the recursion depth
    (every nested call that goes past the checks adds a URL to
    [visited_urls], so [max_pages + 1] levels are never exceeded). *)
Fixpoint _process_url (fuel : nat) (st : DlState) (url : string) (is_priority : bool)
  : DlState :=
  match fuel with
  | O => st
  | S fuel' =>
      if (max_pages cfg <=? size (dl_visited st))%nat then st
      else if bool_decide (url ∈ dl_visited st) then st
      else
        let st := mark_visited st url in
        let body : Exc :=
          match web url with
          | None => inl st
          | Some page =>
              match for_each (img_step url) (pg_imgs page) st with
              | inl st => inl st
              | inr st =>
                  match for_each (style_step url) (pg_styles page) st with
                  | inl st => inl st
                  | inr st =>
                      if is_priority then
                        for_each (fun st '(href, text) =>
                          match truthy href with
                          | None => inr st
                          | Some href =>
                              if is_keyword_link link_keywords href (Str.lower text) then
                                match urljoin url href with
                                | None => inl st
                                | Some a =>
                                    match urlparse a with
                                    | None => inl st
                                    | Some pa =>
                                        if String.eqb (netloc pa) domain &&
                                           negb (bool_decide (a ∈ dl_visited st))
                                        then inr (_process_url fuel' st a true)
                                        else inr st
                                    end
                                end
                              else inr st
                          end) (pg_anchors page) st
                      else inr st
                  end
              end
          end in
        let st := match body with inl st => st | inr st => st end in
        _download_images st
  end.

Definition add_priority_page (st : DlState) (u : string) : DlState :=
  mkDl (dl_visited st) (dl_image_urls st) (dl_count st) (dl_files st)
       (dl_reqs st) (dl_sleeps st) (dl_priority_pages st ++ [u]).

Definition priority_keywords : list string :=
  link_keywords ++ ["about"; "location"; "contact"].

(** [_identify_priority_pages(url)] *)
Definition _identify_priority_pages (st : DlState) (url : string) : DlState :=
  match web url with
  | None => st
  | Some page =>
      let r := for_each (fun st '(href, text) =>
        match truthy href with
        | None => inr st
        | Some href =>
            if is_keyword_link priority_keywords href (Str.lower text) then
              match urljoin url href with
              | None => inl st
              | Some a =>
                  match urlparse a with
                  | None => inl st
                  | Some pa => if String.eqb (netloc pa) domain
                               then inr (add_priority_page st a) else inr st
                  end
              end
            else inr st
        end) (pg_anchors page) st in
      match r with inl st => st | inr st => st end
  end.

(** [crawl()]: returns [downloaded_count] and the final state. *)
Definition crawl (st0 : DlState) : nat * DlState :=
  let fuel := S (max_pages cfg) in
  let st := mkDl ∅ ∅ 0 (dl_files st0) (dl_reqs st0) (dl_sleeps st0) (dl_priority_pages st0) in
  let st := _identify_priority_pages st (img_base_url cfg) in
  let st := _process_url fuel st (img_base_url cfg) true in
  let st := fold_left (fun st u =>
              if negb (bool_decide (u ∈ dl_visited st)) &&
                 (size (dl_visited st) <? max_pages cfg)%nat
              then _process_url fuel st u true else st) (dl_priority_pages st) st in
  (dl_count st, st).

End Pipeline.

End Img.

(* ------------------------------------------------------------------ *)
(** ** [WebsiteScraper.crawl] and [_process_url] *)
(* ------------------------------------------------------------------ *)

(** A fetched page as the text crawler reads it: its markdown, the
    results of [extract_language_variants], [extract_header_menu_links]
    and [extract_booking_links] (absolute URLs), and the [href] of every
    anchor. *)
Record Page := {
  page_text : string;
  page_language_links : list string;
  page_menu_links : list string;
  page_booking_links : list string;
  page_hrefs : list string
}.

(** Which statement of [main.py] issued a GET. *)
Inductive FetchSite :=
| SeedFetch      (** the landing-page pass at the top of [crawl] *)
| ProcessFetch   (** the GET of [_process_url] *)
| SubdomainFetch (** the GET that explores a language subdomain *).

(** The attributes of [WebsiteScraper] that the crawl updates, and the
    GETs it issues (newest first). *)
Record CrawlState := mkCS {
  cs_visited : gset string;
  cs_markdown : gmap string string;
  cs_main_links : gset string;
  cs_booking_crawled : nat;
  cs_booking_seen : gset string;
  cs_fetches : list (FetchSite * string)
}.

Definition scraper_init : CrawlState := mkCS ∅ ∅ ∅ 0 ∅ [].

(** A computation on the scraper's state that may raise: [Raised]
    carries the state at the point of the exception. *)
Inductive Res (A : Type) :=
| Done (x : A) (s : CrawlState)
| Raised (s : CrawlState).
Arguments Done {A} x s.
Arguments Raised {A} s.

Definition M (A : Type) := CrawlState -> Res A.

Module CrawlMonad.

Definition ret {A} (x : A) : M A := fun s => Done x s.
Definition bind {A B} (m : M A) (k : A -> M B) : M B :=
  fun s => match m s with Done x s' => k x s' | Raised s' => Raised s' end.
Definition raise {A} : M A := fun s => Raised s.
Definition lift {A} (o : option A) : M A :=
  match o with Some x => ret x | None => raise end.
Definition gets {A} (f : CrawlState -> A) : M A := fun s => Done (f s) s.
Definition modify (f : CrawlState -> CrawlState) : M unit := fun s => Done tt (f s).
(** [try: m except Exception: handler] *)
Definition try_except {A} (m : M A) (handler : M A) : M A :=
  fun s => match m s with Done x s' => Done x s' | Raised s' => handler s' end.
(** [for x in l: f(x)] threading an accumulator *)
Fixpoint mfold {A B} (f : B -> A -> M B) (l : list A) (acc : B) : M B :=
  match l with
  | [] => ret acc
  | x :: l' => bind (f acc x) (fun acc' => mfold f l' acc')
  end.

End CrawlMonad.

Import CrawlMonad.
Notation "x <- m ;; k" := (bind m (fun x => k)) (at level 100, m at next level, right associativity).
Notation "m ;;; k" := (bind m (fun _ => k)) (at level 100, right associativity).

Module Crawler.

Section Crawl.

Variable cfg : ScraperConfig.
(** The site: the page a GET of a URL returns, [None] when the status
    is not 200. GETs that raise are not modelled. *)
Variable web : string -> option Page.

Definition language_prefixes : list string :=
  ["en"; "fr"; "de"; "es"; "it"; "nl"; "pt"; "ru"; "zh"; "ja"; "ko"].

Definition priority_paths : list string :=
  ["/rooms"; "/suites"; "/accommodations"; "/lodging"; "/facilities"; "/amenities";
   "/services"; "/photos"; "/gallery"; "/images"; "/spa"; "/restaurant"; "/dining";
   "/en/rooms"; "/en/suites"; "/en/accommodations"; "/en/facilities"; "/en/amenities";
   "/en/photos"; "/en/gallery"; "/en/dining"; "/fr/chambres"; "/de/zimmer";
   "/es/habitaciones"; "/it/camere"; "/room-types"; "/our-rooms"; "/guest-rooms";
   "/our-suites"; "/hotel-facilities"; "/hotel-amenities"; "/photo-gallery";
   "/booking"; "/reserve"; "/reservation"; "/book-now"; "/book"; "/en/booking";
   "/en/reserve"; "/en/book-now"].

(** [is_priority_url]; it also records language subdomains in a set that
    nothing reads, which is left out. *)
Definition is_priority_url (main_links : gset string) (url : string) : option bool :=
  p ← urlparse url;
  let pth := Str.lower (path p) in
  if existsb (String.eqb (Tld.subdomain_of url)) language_prefixes then Some true
  else if Str.any_in Scraper.potential_booking_domains (Str.lower (netloc p)) then Some true
  else Some (Str.any_in priority_paths pth || bool_decide (url ∈ main_links)).

(** [urls_to_visit.sort(key=lambda u: 0 if self.is_priority_url(u) else 1)]:
    a stable sort on a 0/1 key. *)
Definition sort_by_priority (urls : list string) : M (list string) :=
  main <- gets cs_main_links;;
  keyed <- mfold (fun (acc : list (string * bool)) u => k <- lift (is_priority_url main u);; ret (acc ++ [(u, k)])%list) urls [];;
  ret (map fst (List.filter snd keyed) ++ map fst (List.filter (fun x => negb (snd x)) keyed))%list.

Definition skip_href (href : string) : bool :=
  String.eqb href "" || Str.startswith "#" href || Str.startswith "javascript:" href.

Definition log_fetch (site : FetchSite) (url : string) : M unit :=
  modify (fun s => mkCS (cs_visited s) (cs_markdown s) (cs_main_links s)
    (cs_booking_crawled s) (cs_booking_seen s) ((site, url) :: cs_fetches s)).

(** [requests.get(url)] *)
Definition fetch (site : FetchSite) (url : string) : M (option Page) :=
  log_fetch site url;;; ret (web url).

Definition add_visited (n : string) : M unit :=
  modify (fun s => mkCS ({[n]} ∪ cs_visited s) (cs_markdown s) (cs_main_links s)
    (cs_booking_crawled s) (cs_booking_seen s) (cs_fetches s)).

Definition add_booking_seen (d : string) : M unit :=
  modify (fun s => mkCS (cs_visited s) (cs_markdown s) (cs_main_links s)
    (cs_booking_crawled s) ({[d]} ∪ cs_booking_seen s) (cs_fetches s)).

Definition incr_booking_crawled : M unit :=
  modify (fun s => mkCS (cs_visited s) (cs_markdown s) (cs_main_links s)
    (S (cs_booking_crawled s)) (cs_booking_seen s) (cs_fetches s)).

Definition store_markdown (url text : string) : M unit :=
  modify (fun s => mkCS (cs_visited s) (<[url := text]> (cs_markdown s)) (cs_main_links s)
    (cs_booking_crawled s) (cs_booking_seen s) (cs_fetches s)).

Definition add_main_link (n : string) : M unit :=
  modify (fun s => mkCS (cs_visited s) (cs_markdown s) ({[n]} ∪ cs_main_links s)
    (cs_booking_crawled s) (cs_booking_seen s) (cs_fetches s)).

Definition is_visited (n : string) : M bool := gets (fun s => bool_decide (n ∈ cs_visited s)).

(** [for link in links: if is_valid_url(link): n = normalize_url(link);
    if n not in visited_urls: new_urls.append(n)] *)
Definition collect_links (links : list string) (acc : list string) : M (list string) :=
  mfold (fun acc link =>
    v <- lift (Scraper.is_valid_url cfg link);;
    if v then
      n <- lift (Scraper.normalize_url link);;
      seen <- is_visited n;;
      ret (if seen then acc else acc ++ [n])%list
    else ret acc) links acc.

(** [try: for x in l: f(x) except Exception: ...] where the loop appends
    to a list it mutates in place: the appends made before an exception
    are kept. *)
Fixpoint mfold_keep {A B} (f : B -> A -> M B) (l : list A) (acc : B) : M B :=
  match l with
  | [] => ret acc
  | x :: l' => fun s =>
      match f acc x s with
      | Done acc' s' => mfold_keep f l' acc' s'
      | Raised s' => Done acc s'
      end
  end.

(** The booking-limit check of [_process_url] for a booking URL:
    [false] when the URL is skipped. *)
Definition booking_gate (url : string) : M bool :=
  p <- lift (urlparse url);;
  known <- gets (fun s => bool_decide (netloc p ∈ cs_booking_seen s));;
  crawled <- gets cs_booking_crawled;;
  if known && (max_booking_urls cfg <=? crawled)%nat then ret false
  else (if known then ret tt else add_booking_seen (netloc p));;;
       incr_booking_crawled;;;
       ret true.

(** The loop over every [<a href>] of a fetched page in [_process_url]. *)
Definition collect_hrefs (url : string) (hrefs : list string) (acc : list string)
  : M (list string) :=
  mfold (fun acc href =>
    if skip_href href then ret acc else
    full <- lift (urljoin url href);;
    v <- lift (Scraper.is_valid_url cfg full);;
    if v then
      nl <- lift (Scraper.normalize_url full);;
      seen <- is_visited nl;;
      ret (if seen || existsb (String.eqb nl) acc then acc else acc ++ [nl])%list
    else ret acc) hrefs acc.

(** What [_process_url] does with a page it fetched. *)
Definition extract_links (url : string) (pg : Page) : M (list string) :=
  store_markdown url (page_text pg);;;
  new1 <- collect_links (page_language_links pg) [];;
  new2 <- collect_links (page_menu_links pg) new1;;
  crawled <- gets cs_booking_crawled;;
  new3 <- (if (crawled <? max_booking_urls cfg)%nat
           then collect_links (page_booking_links pg) new2 else ret new2);;
  collect_hrefs url (page_hrefs pg) new3.

(** [_process_url(url)]: returns the new URLs to visit. *)
Definition _process_url (url : string) : M (list string) :=
  n <- lift (Scraper.normalize_url url);;
  seen <- is_visited n;;
  if seen then ret [] else
  add_visited n;;;
  b <- lift (Scraper.is_booking_url url);;
  go <- (if b then booking_gate url else ret true);;
  if negb go then ret [] else
  try_except
    (page <- fetch ProcessFetch url;;
     match page with
     | None => ret []
     | Some pg => extract_links url pg
     end)
    (ret []).

(** The exploration of a language subdomain inside the priority loop. *)
Definition explore_subdomain (url : string) (urls_to_visit : list string) : M (list string) :=
  page <- fetch SubdomainFetch url;;
  match page with
  | None => ret urls_to_visit
  | Some pg =>
      mfold_keep (fun acc link =>
        v <- lift (Scraper.is_valid_url cfg link);;
        seen <- is_visited link;;
        if v && negb seen then
          n <- lift (Scraper.normalize_url link);;
          ret (acc ++ [n])%list
        else ret acc) (page_menu_links pg) urls_to_visit
  end.

(** The landing-page pass that fills [main_page_links] and
    [priority_urls]. *)
Definition seed : M (list string) :=
  let base := base_url cfg in
  page <- fetch SeedFetch base;;
  match page with
  | None => ret []
  | Some pg =>
      mfold (fun _ href =>
        if skip_href href then ret tt else
        full <- lift (urljoin base href);;
        v <- lift (Scraper.is_valid_url cfg full);;
        if v then (n <- lift (Scraper.normalize_url full);; add_main_link n) else ret tt)
        (page_hrefs pg) tt;;;
      p1 <- collect_links (page_language_links pg) [];;
      p2 <- collect_links (page_menu_links pg) p1;;
      collect_links (page_booking_links pg) p2
  end.

(** [while urls_to_visit:]; [fuel] bounds the number of iterations. *)
Fixpoint crawl_loop (fuel : nat) (urls : list string) : M unit :=
  match fuel with
  | O => ret tt
  | S fuel' =>
      match urls with
      | [] => ret tt
      | _ =>
          sorted <- sort_by_priority urls;;
          match sorted with
          | [] => ret tt
          | u :: rest =>
              seen <- is_visited u;;
              if seen then crawl_loop fuel' rest else
              new <- _process_url u;;
              vis <- gets cs_visited;;
              crawl_loop fuel'
                (fold_left (fun acc nu =>
                   if bool_decide (nu ∈ vis) || existsb (String.eqb nu) acc then acc
                   else (acc ++ [nu])%list) new rest)
          end
      end
  end.

(** The body of the [try] of [crawl]. *)
Definition crawl_body (fuel : nat) : M unit :=
  let base := base_url cfg in
  prio <- seed;;
  _process_url base;;;
  urls <- mfold (fun urls u =>
            seen <- is_visited u;;
            if seen then ret urls else
            _process_url u;;;
            _ <- lift (urlparse u);;
            if existsb (String.eqb (Tld.subdomain_of u)) language_prefixes
            then try_except (explore_subdomain u urls) (ret urls)
            else ret urls) prio [base];;
  crawl_loop fuel urls.

(** [crawl()]: the [except] returns [markdown_content] as it stands, so
    the final state is kept either way. *)
Definition crawl (fuel : nat) (s0 : CrawlState) : CrawlState :=
  match crawl_body fuel s0 with Done _ s => s | Raised s => s end.

End Crawl.

End Crawler.

(* ------------------------------------------------------------------ *)
(** ** File and folder names *)
(* ------------------------------------------------------------------ *)

Module Names.

(** The character class of the [re.sub] calls: backslash, slash, star,
    question mark, colon, double quote, less-than, greater-than, bar. *)
Definition unsafe_char (c : ascii) : bool :=
  existsb (Ascii.eqb c)
    ["092"%char; "/"%char; "*"%char; "?"%char; ":"%char; "034"%char; "<"%char;
     ">"%char; "|"%char].

(** [re.sub(<that class>, '_', s)] *)
Fixpoint sanitize (s : string) : string :=
  match s with
  | EmptyString => EmptyString
  | String c r => String (if unsafe_char c then "_"%char else c) (sanitize r)
  end.

(** [s.replace(".", "_")] *)
Fixpoint replace_dots (s : string) : string :=
  match s with
  | EmptyString => EmptyString
  | String c r => String (if Ascii.eqb c "."%char then "_"%char else c) (replace_dots r)
  end.

(** [s.lstrip(c)] for a single character [c] *)
Fixpoint lstrip (c : ascii) (s : string) : string :=
  match s with
  | EmptyString => EmptyString
  | String x r => if Ascii.eqb x c then lstrip c r else s
  end.

(** [s.strip(c)] for a single character [c] *)
Definition strip (c : ascii) (s : string) : string := Str.rstrip c (lstrip c s).

(** [os.path.join(a, b)] (POSIX) *)
Definition path_join (a b : string) : string :=
  if Str.startswith "/" b then b
  else if String.eqb a "" || Str.endswith "/" a then a ++ b
  else a ++ "/" ++ b.

(** [ImageDownloader._get_folder_name_from_url]: it has no [try], so the
    [ValueError] of [urlparse] ([None]) reaches the constructor. *)
Definition _get_folder_name_from_url (url : string) : option string :=
  p ← urlparse url;
  let folder_name := replace_dots (netloc p) in
  let folder_name :=
    if negb (String.eqb (path p) "") && negb (String.eqb (path p) "/") then
      let pth := sanitize (strip "/"%char (path p)) in
      let pth := if (50 <? String.length pth)%nat then Str.take 50 pth else pth in
      folder_name ++ "_" ++ pth
    else folder_name in
  Some (if (100 <? String.length folder_name)%nat then Str.take 100 folder_name
        else folder_name).

(** [os.path.join("MCP", "data", "scraped")] *)
Definition scraped_dir : string := path_join (path_join "MCP" "data") "scraped".

(** [os.path.join("MCP", "data", "structured")] *)
Definition structured_dir : string := path_join (path_join "MCP" "data") "structured".

(** [save_markdown_content(markdown_content, url)]: the path it writes to
    and returns; [now] is [int(time.time())] and [write_ok path] tells
    whether creating the output directory and writing the JSON file at
    [path] succeed (they fail, for one, when the file name is longer than
    the file system allows). A failed write and the [ValueError] of
    [urlparse] are caught and give [None]. *)
Definition save_markdown_content (write_ok : string -> bool) (url : string) (now : Z)
  : option string :=
  p ← urlparse url;
  let domain := netloc p in
  let safe_domain := sanitize domain in
  let output_filename := safe_domain ++ "_" ++ str_of_Z now ++ ".json" in
  let output_path := path_join scraped_dir output_filename in
  if write_ok output_path then Some output_path else None.

End Names.

(* ------------------------------------------------------------------ *)
(** ** The pipeline of [main.py] *)
(* ------------------------------------------------------------------ *)

(** The outcome of [requests.head(base_url, allow_redirects=True)]: a
    response (its status code and final URL) or one of the exceptions
    [validate_url] catches. *)
Inductive HeadOutcome :=
| HeadResponse (status_code : Z) (final_url : string)
| HeadConnectionError
| HeadTimeout
| HeadTooManyRedirects
| HeadRequestException.

(** Python's [str.isspace] on ASCII: tab to carriage return, the
    separators 0x1c to 0x1f and the space. *)
Definition is_space (c : ascii) : bool :=
  let n := nat_of_ascii c in
  ((9 <=? n)%nat && (n <=? 13)%nat) || ((28 <=? n)%nat && (n <=? 32)%nat).

Fixpoint lstrip_space (s : string) : string :=
  match s with
  | EmptyString => EmptyString
  | String c r => if is_space c then lstrip_space r else s
  end.

Fixpoint rstrip_space (s : string) : string :=
  match s with
  | EmptyString => EmptyString
  | String x r =>
      match rstrip_space r with
      | EmptyString => if is_space x then EmptyString else String x EmptyString
      | r' => String x r'
      end
  end.

(** [s.strip()] *)
Definition py_strip (s : string) : string := rstrip_space (lstrip_space s).

(** The state of the world one call of [process_hotel] sees. *)
Record World := {
  w_head : string -> HeadOutcome;       (** [requests.head] of a base URL *)
  w_answer : option string;             (** the line [input()] reads; [None]: [EOFError] *)
  w_web : string -> option Page;        (** the pages of the text crawl *)
  w_fuel : nat;                         (** the bound on the crawl loop *)
  w_now : Z;                            (** [int(time.time())] *)
  w_write_ok : string -> bool;          (** creating the directory of a path and
                                            writing a JSON file at it succeed *)
  w_api_ready : bool;                   (** [OPENAI_API_KEY] is set and [LLM_TEMPERATURE]
                                            parses as a float: the checks that
                                            [structure_info.structure_content] makes
                                            before its [try] *)
  w_site_of_json : string -> string * string;
      (** [extract_url_from_structured_json] of a structured file *)
  w_net : string -> list Outcome;       (** the image requests *)
  w_py_hash : string -> Z;
  w_img_web : string -> option Img.ImgPage;
  w_bg_match : string -> option string
}.

Module Pipeline.

(** [WebsiteScraper.validate_url] *)
Definition validate_url (base : string) (o : HeadOutcome) : bool * option string :=
  match o with
  | HeadResponse code final =>
      if (200 <=? code)%Z && (code <? 300)%Z then
        if negb (String.eqb final base) then (true, Some final) else (true, None)
      else (false, None)
  | _ => (false, None)
  end.

(** [WebsiteScraper(base_url, delay, max_booking_urls)]: [urlparse] of the
    base URL may raise. *)
Definition new_scraper (url : string) (max_booking : nat) : option ScraperConfig :=
  _ ← urlparse url;
  Some {| base_url := url; max_booking_urls := max_booking |}.

Section Run.
Variable w : World.

(** [get_website_markdown(url, delay, max_booking_urls)]; every exception
    is caught and gives [None]. *)
Definition get_website_markdown (url : string) (max_booking : nat)
  : option (gmap string string) :=
  scraper ← new_scraper url max_booking;
  let '(is_valid, redirected_url) := validate_url url (w_head w url) in
  if negb is_valid then None else
  scraper ← (match redirected_url with
             | Some r =>
                 if String.eqb r "" then Some scraper else
                 line ← w_answer w;
                 let choice := Str.lower (py_strip line) in
                 if String.eqb choice "y" || String.eqb choice "yes"
                 then new_scraper r max_booking else None
             | None => Some scraper
             end);
  let content := cs_markdown (Crawler.crawl scraper (w_web w) (w_fuel w) scraper_init) in
  if bool_decide (content = ∅) then None else Some content.

(** [structure_content(input_file_path)] of [main.py]: [open(None)]
    raises; the file [save_markdown_content] has just written reads back;
    the environment checks of [structure_info.structure_content] raise
    before its [try]; past them the call always returns a JSON string,
    which [save_structured_content] writes under the input's base name,
    and a failed write raises. Every exception gives [None]. *)
Definition structure_content (input_file_path : option string) : option string :=
  input ← input_file_path;
  if negb (w_api_ready w) then None else
  let output_path := Names.path_join Names.structured_dir (basename input) in
  if w_write_ok w output_path then Some output_path else None.

(** [url.startswith(('http://', 'https://'))] or else ['https://' + url] *)
Definition add_scheme (url : string) : string :=
  if Str.startswith "http://" url || Str.startswith "https://" url then url
  else "https://" ++ url.

(** [download_images(json_file_path, ...)]; every exception gives [False]. *)
Definition download_images (json_file_path : string) (min_width min_height min_size : Z)
    (max_pages : nat) : bool :=
  let '(url, unique_id) := w_site_of_json w json_file_path in
  if String.eqb url "" then false else
  let url := add_scheme url in
  match urlparse url with
  | None => false
  | Some _ =>
      let downloader := {| img_base_url := url; min_width := min_width;
                           min_height := min_height; min_size_kb := min_size;
                           max_pages := max_pages |} in
      let '(image_count, _) :=
        Img.crawl downloader (w_net w) (w_py_hash w) (w_img_web w) (w_bg_match w) dl_init in
      (0 <? image_count)%nat
  end.

(** [process_hotel(url, ...)]: its return value, paired with the result of
    [download_images] when step 4 runs. *)
Definition process_hotel (url : string) (max_booking : nat) (min_width min_height min_size : Z)
    (max_pages : nat) : bool * option bool :=
  match get_website_markdown url max_booking with
  | None => (false, None)
  | Some markdown_content =>
      if bool_decide (markdown_content = ∅) then (false, None) else
      let output_path := Names.save_markdown_content (w_write_ok w) url (w_now w) in
      match structure_content output_path with
      | None => (false, None)
      | Some structured_path =>
          if String.eqb structured_path "" then (false, None) else
          (true, Some (download_images structured_path min_width min_height min_size max_pages))
      end
  end.

End Run.


End Pipeline.

(* ------------------------------------------------------------------ *)
(** ** A concrete site used by the examples *)
(* ------------------------------------------------------------------ *)

Definition hotel_cfg : ScraperConfig :=
  {| base_url := "https://www.hotel.com"; max_booking_urls := 5 |}.

Definition shop_cfg : ImgConfig :=
  {| img_base_url := "https://www.hotel.com"; min_width := 800; min_height := 600;
     min_size_kb := 50; max_pages := 20 |}.

(** 50 KB of image bytes, decoded as an 800 x 600 picture. *)
Definition blob : list Byte.byte := repeat Byte.x00 (Z.to_nat 51200).

Definition photo : Response :=
  {| status_ok := true; content_type := "image/jpeg"; content_length := Some 51200%Z;
     content := blob; image_size := Some (800, 600)%Z |}.

Definition img_tag (src : string) : Img.ImgTag :=
  {| Img.tag_src := Some src; Img.tag_width := None; Img.tag_height := None;
     Img.tag_data_src := None |}.

(** A landing page showing the same photo under two names. *)
Definition shop_web (u : string) : option Img.ImgPage :=
  if String.eqb u "https://www.hotel.com" then
    Some {| Img.pg_imgs := [img_tag "/img/a.jpg"; img_tag "/img/b.jpg"];
            Img.pg_styles := []; Img.pg_anchors := [] |}
  else None.

(** Byte-wise equality of two byte strings. *)
Fixpoint bytes_eqb (a b : list Byte.byte) : bool :=
  match a, b with
  | [], [] => true
  | x :: a', y :: b' => Byte.eqb x y && bytes_eqb a' b'
  | _, _ => false
  end.

Definition shop_net (u : string) : list Outcome := [Ok photo].

(** The first request times out, the next ones succeed. *)
Definition flaky_net (u : string) : list Outcome := [Timeout; Ok photo].

(** The third request (the image GET of [download_image]) times out. *)
Definition flaky_get_net (u : string) : list Outcome := [Ok photo; Ok photo; Timeout; Ok photo].

(** A stand-in digest (the byte count in decimal); the statements that
    use it hold for any function of the bytes. *)
Definition len_digest (d : list Byte.byte) : string := str_of_Z (Z.of_nat (length d)).

(** A page of the text crawl with no links. *)
Definition text_page (t : string) : Page :=
  {| page_text := t; page_language_links := []; page_menu_links := [];
     page_booking_links := []; page_hrefs := [] |}.

Definition page_names : list string := ["1"; "2"; "3"; "4"; "5"; "6"; "7"; "8"; "9"; "10"].

(** A landing page whose header menu links to ten pages of the site. *)
Definition menu_web (u : string) : option Page :=
  if String.eqb u "https://www.hotel.com" then
    Some {| page_text := "home"; page_language_links := [];
            page_menu_links := map (fun k => "https://www.hotel.com/p" ++ k) page_names;
            page_booking_links := [];
            page_hrefs := map (fun k => "/p" ++ k) page_names |}
  else Some (text_page u).

(** A site whose landing page has no links. *)
Definition home_web (u : string) : option Page := Some (text_page u).

Definition book_cfg : ScraperConfig :=
  {| base_url := "https://www.hotel.com"; max_booking_urls := 1 |}.

(** A landing page with booking links on two booking subdomains. *)
Definition book_web (u : string) : option Page :=
  if String.eqb u "https://www.hotel.com" then
    Some {| page_text := "home"; page_language_links := []; page_menu_links := [];
            page_booking_links := ["https://booking.hotel.com/rooms";
                                   "https://reserve.hotel.com/rooms"];
            page_hrefs := [] |}
  else Some (text_page u).

(** A hotel whose base URL redirects to its canonical form; the user
    answers the redirect prompt with " Yes ". *)
Definition redirect_world : World :=
  {| w_head := fun _ => HeadResponse 200 "https://www.hotel.com/";
     w_answer := Some " Yes ";
     w_web := home_web;
     w_fuel := 5;
     w_now := 1700000000;
     w_write_ok := fun p => (String.length (basename p) <=? 255)%nat;
     w_api_ready := true;
     w_site_of_json := fun _ => ("www.hotel.com", "hotel1");
     w_net := fun _ => [Ok photo];
     w_py_hash := fun _ => 0%Z;
     w_img_web := shop_web;
     w_bg_match := fun _ => None |}.




(* ================================================================== *)
(** * Properties of the URL layer *)
(* ================================================================== *)

Module UrlFacts.

Import Scraper.

(** The query parameters of a query string, as the loop of
    [normalize_url] walks them (an empty query has none). *)
Definition qparams (q : string) : list string :=
  if String.eqb q "" then [] else Str.split "&"%char q.

(** A parameter that survives the loop: it has a ['='] and its key is
    not one of the volatile ones. *)
Definition kept (param : string) : bool :=
  match Str.split_once "="%char param with
  | Some (key, _) => negb (existsb (String.eqb (Str.lower key)) volatile_params)
  | None => false
  end.

Lemma strip_step_dropped d (x : string) :
  kept x = false -> strip_step d x = d.
Proof.
  unfold kept, strip_step. destruct (Str.split_once "="%char x) as [[key value]|]; [|done].
  destruct (existsb _ _); done.
Qed.

Lemma strip_params_fold_filter (l : list string) d :
  fold_left strip_step l d = fold_left strip_step (List.filter kept l) d.
Proof.
  revert d. induction l as [|x l IH]; intros d; [reflexivity|].
  cbn [fold_left List.filter]. destruct (kept x) eqn:Hk.
  - cbn [fold_left]. apply IH.
  - rewrite strip_step_dropped by exact Hk. apply IH.
Qed.

Lemma strip_params_filter (l : list string) :
  strip_params l = strip_params (List.filter kept l).
Proof. unfold strip_params. apply strip_params_fold_filter. Qed.

(** [normalize_url] of a parsed URL, by cases on its query. *)
Lemma normalize_url_unfold (u : string) (p : ParseResult) :
  urlparse u = Some p ->
  normalize_url u =
  let normalized := scheme p ++ "://" ++ netloc p ++ path p in
  if String.eqb (query p) "" then Some (Str.rstrip "/"%char normalized) else
  is_booking_url u ≫= fun (b : bool) =>
  Some (Str.rstrip "/"%char
    (if b then
       match strip_params (Str.split "&"%char (query p)) with
       | [] => normalized
       | d => normalized ++ "?" ++ render_params d
       end
     else normalized ++ "?" ++ query p)).
Proof. intros H. unfold normalize_url. rewrite H. reflexivity. Qed.

(** A booking URL normalises to its scheme, netloc and path followed by
    the parameters that survive, whatever its raw query. *)
Lemma normalize_booking (u : string) (p : ParseResult) :
  urlparse u = Some p -> is_booking_url u = Some true ->
  normalize_url u =
  Some (Str.rstrip "/"%char
    (match strip_params (List.filter kept (qparams (query p))) with
     | [] => scheme p ++ "://" ++ netloc p ++ path p
     | d => (scheme p ++ "://" ++ netloc p ++ path p) ++ "?" ++ render_params d
     end)).
Proof.
  intros Hp Hb. rewrite (normalize_url_unfold u p Hp). cbv zeta.
  unfold qparams.
  destruct (String.eqb (query p) "") eqn:Hq.
  - reflexivity.
  - rewrite Hb. simpl. rewrite <- strip_params_filter. reflexivity.
Qed.

End UrlFacts.

(** C6 (failing input): "https://hotel.com/rooms/?page=2" and
    "https://hotel.com/rooms?page=2" differ only by the trailing slash of
    the path, yet [normalize_url] maps them to different strings: the
    [rstrip('/')] runs after the query has been appended, so the slash
    before a query is never removed. *)
Theorem normalize_url_slash_before_query :
  Scraper.normalize_url "https://hotel.com/rooms/?page=2" = Some "https://hotel.com/rooms/?page=2" /\
  Scraper.normalize_url "https://hotel.com/rooms?page=2" = Some "https://hotel.com/rooms?page=2".
Proof. split; vm_compute; reflexivity. Qed.

(** C7 (failing input): for the non-booking URL
    "https://hotel.com/search?next=/rooms/" [normalize_url] does not keep
    the query verbatim: the [rstrip('/')] runs on the whole string after
    the query has been appended, so the query "next=/rooms/" comes back as
    "next=/rooms"; and for the non-booking URL
    "https://hotel.com/rooms;view=1?page=2" the f-string rebuilds the URL
    from [scheme], [netloc] and [path] only, so the ";view=1" parameters
    that [urlparse] splits off the path are dropped. In both cases more
    than the fragment and a trailing slash is removed. *)
Theorem normalize_url_query_slash :
  Scraper.is_booking_url "https://hotel.com/search?next=/rooms/" = Some false /\
  Scraper.normalize_url "https://hotel.com/search?next=/rooms/" =
    Some "https://hotel.com/search?next=/rooms" /\
  Scraper.is_booking_url "https://hotel.com/rooms;view=1?page=2" = Some false /\
  Scraper.normalize_url "https://hotel.com/rooms;view=1?page=2" = Some "https://hotel.com/rooms?page=2".
Proof. repeat split; vm_compute; reflexivity. Qed.

(** C8 (failing input): with base "https://www.hotel.com", the
    same-site PDF "https://en.hotel.com/brochure.pdf" is rejected by the
    extension filter, but the PDF
    "https://hotel.com.bookingengine.net/brochure.pdf" on an external
    booking domain is accepted: the early [return True] of the external
    booking branch skips the extension filter, although the docstring
    says a valid URL is not a file. *)
Theorem is_valid_url_external_pdf :
  Scraper.is_valid_url hotel_cfg "https://en.hotel.com/brochure.pdf" = Some false /\
  Scraper.is_valid_url hotel_cfg "https://hotel.com.bookingengine.net/brochure.pdf" = Some true.
Proof. split; vm_compute; reflexivity. Qed.

(** C9 (failing input): "http://[hotel.com/rooms" makes [urlparse] raise
    [ValueError] (an unmatched '['); the [is_valid_url] of [main.py] has
    no [try] and lets it reach the caller, for every configuration,
    while the [is_valid_url] of [images.py] catches it and answers False. *)
Theorem is_valid_url_bracket_raises :
  (forall cfg : ScraperConfig, Scraper.is_valid_url cfg "http://[hotel.com/rooms" = None) /\
  ImgUrl.is_valid_url "www.hotel.com" "http://[hotel.com/rooms" = false.
Proof. split; [intros cfg|]; vm_compute; reflexivity. Qed.

(* ================================================================== *)
(** * Properties of the image pipeline *)
(* ================================================================== *)

(** Case analysis on every integer comparison of the goal. *)
Ltac zcases :=
  repeat match goal with
  | |- context [Z.ltb ?a ?b] => destruct (Z.ltb_spec a b)
  | |- context [Z.leb ?a ?b] => destruct (Z.leb_spec a b)
  end; simpl; try lia; try reflexivity.

Module ImgFacts.

(** The floating-point test [len / 1024 < min_size_kb] is the integer
    test [len < min_size_kb * 1024]. *)
Lemma below_min_kb_spec (len : nat) (m : Z) :
  below_min_kb len m = (Z.of_nat len <? m * 1024)%Z.
Proof.
  unfold below_min_kb.
  destruct (Qle_bool _ _) eqn:E; simpl.
  - apply Qle_bool_iff in E. unfold Qle, Qdiv, Qmult, Qinv, inject_Z in E. simpl in E.
    symmetry. apply Z.ltb_ge. lia.
  - assert (~ (inject_Z m <= inject_Z (Z.of_nat len) / inject_Z 1024)%Q) as N.
    { intros Hle. apply Qle_bool_iff in Hle. congruence. }
    unfold Qle, Qdiv, Qmult, Qinv, inject_Z in N. simpl in N.
    symmetry. apply Z.ltb_lt. lia.
Qed.

End ImgFacts.

(** C1 (failing input): a landing page shows the same 50 KB, 800 x 600
    photo as "/img/a.jpg" and "/img/b.jpg". The crawl stores it twice, as
    "a.jpg" and "b.jpg" with identical bytes, and records no content
    hash: [_download_image] has no hash check. The sibling
    [download_image] (never called by the crawl) skips the second copy. *)
Theorem crawl_stores_identical_images_twice :
  (forall (py_hash : string -> Z) (bg_match : string -> option string),
     let '(n, st) := Img.crawl shop_cfg shop_net py_hash shop_web bg_match dl_init in
     n = 2%nat /\ map fst (dl_files st) = ["b.jpg"; "a.jpg"] /\
     forallb (bytes_eqb blob) (map snd (dl_files st)) = true /\ dl_image_urls st = ∅) /\
  (let st1 := snd (Img.download_image shop_cfg shop_net len_digest dl_init
                     "https://www.hotel.com/img/a.jpg" 3) in
   let '(b, st2) := Img.download_image shop_cfg shop_net len_digest st1
                      "https://www.hotel.com/img/b.jpg" 3 in
   b = Some false /\ map fst (dl_files st2) = ["a.jpg"] /\ size (dl_image_urls st2) = 1%nat).
Proof.
  split.
  - intros py_hash bg_match. vm_compute. repeat split; reflexivity.
  - vm_compute. repeat split; reflexivity.
Qed.

(** C5: [_download_image] (the crawl's path) writes a fetched image whose
    width, height and byte size reach [min_width], [min_height] and
    [min_size_kb * 1024], equal values included, and writes nothing when
    any of them is below its minimum; [get_image_info] judges the same
    way. *)
Theorem image_thresholds_inclusive :
  forall (cfg : ImgConfig) (net : string -> list Outcome) (py_hash : string -> Z)
         (st st1 st2 : DlState) (url : string) (r : Response) (p : ParseResult) (w h : Z),
    Img.request net st url = (Ok r, st1) ->
    status_ok r = true -> Str.startswith "image/" (content_type r) = true ->
    image_size r = Some (w, h) -> urlparse url = Some p ->
    ((min_width cfg <= w)%Z -> (min_height cfg <= h)%Z ->
     (min_size_kb cfg * 1024 <= Z.of_nat (length (content r)))%Z ->
     dl_count (Img._download_image cfg net py_hash st url) = S (dl_count st) /\
     hd_error (map snd (dl_files (Img._download_image cfg net py_hash st url))) = Some (content r)) /\
    ((w < min_width cfg)%Z \/ (h < min_height cfg)%Z \/
     (Z.of_nat (length (content r)) < min_size_kb cfg * 1024)%Z ->
     Img._download_image cfg net py_hash st url = st1) /\
    (Img.request net st1 url = (Ok r, st2) ->
     (content_length r = None \/ content_length r = Some (Z.of_nat (length (content r)))) ->
     (let '((valid, _, _, _, _), _) := Img.get_image_info cfg net st url in valid) =
     ((min_width cfg <=? w)%Z && (min_height cfg <=? h)%Z &&
      (min_size_kb cfg * 1024 <=? Z.of_nat (length (content r)))%Z)).
Proof.
  intros cfg net py_hash st st1 st2 url r p w h Hr Hok Hct Hsz Hp.
  assert (Hdl : Img._download_image cfg net py_hash st url =
    if (Z.of_nat (length (content r)) <? min_size_kb cfg * 1024)%Z then st1
    else if (w <? min_width cfg)%Z || (h <? min_height cfg)%Z then st1
    else Img.write_file st1
           (let filename := basename (path p) in
            if String.eqb filename "" || negb (Str.has_char "."%char filename)
            then "image_" ++ str_of_Z (py_hash url mod 10000) ++ ".jpg" else filename)
           (content r)).
  { unfold Img._download_image. rewrite Hr, Hok, Hct. simpl.
    rewrite ImgFacts.below_min_kb_spec, Hsz, Hp. reflexivity. }
  assert (Hst1 : dl_count st1 = dl_count st).
  { unfold Img.request in Hr. injection Hr as _ <-. reflexivity. }
  split; [|split].
  - intros Hw Hh Hs. rewrite Hdl.
    replace (Z.of_nat (length (content r)) <? min_size_kb cfg * 1024)%Z with false
      by (symmetry; apply Z.ltb_ge; lia).
    replace (w <? min_width cfg)%Z with false by (symmetry; apply Z.ltb_ge; lia).
    replace (h <? min_height cfg)%Z with false by (symmetry; apply Z.ltb_ge; lia).
    simpl. rewrite Hst1. split; reflexivity.
  - intros Hlow. rewrite Hdl.
    destruct (Z.ltb_spec (Z.of_nat (length (content r))) (min_size_kb cfg * 1024)); [reflexivity|].
    destruct (Z.ltb_spec w (min_width cfg)); [reflexivity|].
    destruct (Z.ltb_spec h (min_height cfg)); [reflexivity|]. lia.
  - intros Hr2 Hcl. unfold Img.get_image_info. rewrite Hr.
    cbn -[Str.startswith Img.request Z.ltb Z.leb]. rewrite Hct.
    destruct Hcl as [-> | ->]; cbn -[Z.ltb Z.leb Img.request]; rewrite ?Hr2, ?Hsz;
      cbn -[Z.ltb Z.leb]; zcases.
Qed.

Lemma image_thresholds_inclusive_witness :
  dl_count (Img._download_image shop_cfg shop_net (fun _ => 0%Z) dl_init
              "https://www.hotel.com/img/a.jpg") = 1%nat.
Proof.
  destruct (image_thresholds_inclusive shop_cfg shop_net (fun _ => 0%Z) dl_init
              (snd (Img.request shop_net dl_init "https://www.hotel.com/img/a.jpg"))
              (snd (Img.request shop_net
                      (snd (Img.request shop_net dl_init "https://www.hotel.com/img/a.jpg"))
                      "https://www.hotel.com/img/a.jpg"))
              "https://www.hotel.com/img/a.jpg" photo
              {| scheme := "https"; netloc := "www.hotel.com"; path := "/img/a.jpg";
                 params := ""; query := ""; fragment := "" |} 800%Z 600%Z)
    as [Hacc _]; [reflexivity | reflexivity | reflexivity | reflexivity
                 | vm_compute; reflexivity |].
  apply Hacc; [vm_compute; discriminate | vm_compute; discriminate
              | apply Z.leb_le; vm_compute; reflexivity].
Defined.

(** C10 (failing input): the image "https://www.hotel.com/img/c.jpg"
    whose first request times out and whose next request succeeds.
    [_download_image] (the crawl's path) makes one request, writes
    nothing and never retries. The sibling [download_image] retries a
    timed-out image GET after [time.sleep(1)] and stores the image. *)
Theorem download_image_no_retry :
  (forall py_hash : string -> Z,
     let st := Img._download_image shop_cfg flaky_net py_hash dl_init
                 "https://www.hotel.com/img/c.jpg" in
     dl_files st = [] /\ dl_count st = 0%nat /\
     dl_reqs st !! "https://www.hotel.com/img/c.jpg" = Some 1%nat /\ dl_sleeps st = [] /\
     dl_count (Img._download_image shop_cfg flaky_net py_hash st
                 "https://www.hotel.com/img/c.jpg") = 1%nat) /\
  (let '(b, st) := Img.download_image shop_cfg flaky_get_net len_digest dl_init
                     "https://www.hotel.com/img/c.jpg" 3 in
   b = Some true /\ map fst (dl_files st) = ["c.jpg"] /\ dl_sleeps st = [1%Z]).
Proof.
  split.
  - intros py_hash. vm_compute. repeat split; reflexivity.
  - vm_compute. repeat split; reflexivity.
Qed.

(* ================================================================== *)
(** * Properties of the crawls *)
(* ================================================================== *)

Module CrawlFacts.

Definition st_of {A} (r : Res A) : CrawlState :=
  match r with Done _ s => s | Raised s => s end.

Section Stable.
Context (R : relation CrawlState) `{!PreOrder R}.

Definition stable {A} (m : M A) : Prop := ∀ s, R s (st_of (m s)).

Lemma stable_ret {A} (x : A) : stable (ret x).
Proof. intros s. reflexivity. Qed.
Lemma stable_raise {A} : stable (@raise A).
Proof. intros s. reflexivity. Qed.
Lemma stable_lift {A} (o : option A) : stable (lift o).
Proof. destruct o; intros s; reflexivity. Qed.
Lemma stable_gets {A} (f : CrawlState -> A) : stable (gets f).
Proof. intros s. reflexivity. Qed.
Lemma stable_modify f : (∀ s, R s (f s)) → stable (modify f).
Proof. intros Hf s. apply Hf. Qed.
Lemma stable_bind {A B} (m : M A) (k : A -> M B) :
  stable m → (∀ x, stable (k x)) → stable (bind m k).
Proof.
  intros Hm Hk s. unfold bind. specialize (Hm s).
  destruct (m s) as [x s'|s']; simpl in *; [|exact Hm].
  etrans; [exact Hm | apply Hk].
Qed.
Lemma stable_try {A} (m h : M A) : stable m → stable h → stable (try_except m h).
Proof.
  intros Hm Hh s. unfold try_except. specialize (Hm s).
  destruct (m s) as [x s'|s']; simpl in *; [exact Hm|].
  etrans; [exact Hm | apply Hh].
Qed.
Lemma stable_mfold {A B} (f : B -> A -> M B) (l : list A) (acc : B) :
  (∀ acc x, stable (f acc x)) → stable (mfold f l acc).
Proof.
  intros Hf. revert acc. induction l as [|x l IH]; intros acc; simpl.
  - apply stable_ret.
  - apply stable_bind; auto.
Qed.
Lemma stable_mfold_keep {A B} (f : B -> A -> M B) (l : list A) (acc : B) :
  (∀ acc x, stable (f acc x)) → stable (Crawler.mfold_keep f l acc).
Proof.
  intros Hf. revert acc. induction l as [|x l IH]; intros acc s; simpl.
  - reflexivity.
  - specialize (Hf acc x s). destruct (f acc x s) as [acc' s'|s']; simpl in *; [|exact Hf].
    etrans; [exact Hf | apply IH].
Qed.
End Stable.

Ltac stab :=
  repeat (cbv beta zeta; match goal with
  | |- stable ?R (bind _ _) => apply (stable_bind R); [|intros ?]
  | |- stable ?R (ret _) => apply (stable_ret R)
  | |- stable ?R raise => apply (stable_raise R)
  | |- stable ?R (lift _) => apply (stable_lift R)
  | |- stable ?R (gets _) => apply (stable_gets R)
  | |- stable ?R (Crawler.is_visited _) => apply (stable_gets R)
  | |- stable ?R (try_except _ _) => apply (stable_try R)
  | |- stable ?R (mfold _ _ _) => apply (stable_mfold R); intros ? ?
  | |- stable ?R (Crawler.mfold_keep _ _ _) => apply (stable_mfold_keep R); intros ? ?
  | |- stable _ (if ?b then _ else _) => destruct b
  | |- stable _ (match ?x with _ => _ end) => destruct x
  end).

Definition is_process_fetch (e : FetchSite * string) : bool :=
  match fst e with ProcessFetch => true | _ => false end.

(** The URLs [_process_url] issued a GET for, newest first. *)
Definition process_fetches (s : CrawlState) : list string :=
  map snd (List.filter is_process_fetch (cs_fetches s)).

(** A step that touches neither the GETs of [_process_url] nor the
    booking counters, and only adds to [visited_urls]. *)
Definition quiet (s s' : CrawlState) : Prop :=
  cs_visited s ⊆ cs_visited s' ∧ process_fetches s' = process_fetches s ∧
  cs_booking_crawled s' = cs_booking_crawled s ∧ cs_booking_seen s' = cs_booking_seen s.

#[export] Instance quiet_preorder : PreOrder quiet.
Proof.
  split.
  - intros s. unfold quiet. repeat split; set_solver.
  - intros s1 s2 s3 (?&?&?&?) (?&?&?&?). unfold quiet.
    repeat split; [set_solver|congruence..].
Qed.

Lemma quiet_add_visited n : stable quiet (Crawler.add_visited n).
Proof. apply stable_modify. intros s. unfold quiet; simpl. repeat split; set_solver. Qed.
Lemma quiet_store_markdown u t : stable quiet (Crawler.store_markdown u t).
Proof. apply stable_modify. intros s. unfold quiet; simpl. repeat split; set_solver. Qed.
Lemma quiet_add_main_link n : stable quiet (Crawler.add_main_link n).
Proof. apply stable_modify. intros s. unfold quiet; simpl. repeat split; set_solver. Qed.

Section Quiet.
Variable cfg : ScraperConfig.
Variable web : string -> option Page.

Lemma quiet_fetch site u :
  site ≠ ProcessFetch → stable quiet (Crawler.fetch web site u).
Proof.
  intros Hsite. unfold Crawler.fetch, Crawler.log_fetch.
  apply (stable_bind quiet); [|intros; apply (stable_ret quiet)].
  apply stable_modify. intros s. unfold quiet, process_fetches; simpl.
  unfold is_process_fetch at 1; simpl. destruct site; [| done |]; repeat split; set_solver.
Qed.

Lemma quiet_collect_links links acc : stable quiet (Crawler.collect_links cfg links acc).
Proof. unfold Crawler.collect_links. stab. Qed.
Lemma quiet_collect_hrefs u hrefs acc : stable quiet (Crawler.collect_hrefs cfg u hrefs acc).
Proof. unfold Crawler.collect_hrefs. stab. Qed.
Lemma quiet_extract_links u pg : stable quiet (Crawler.extract_links cfg u pg).
Proof.
  unfold Crawler.extract_links. apply (stable_bind quiet); [apply quiet_store_markdown|intros _].
  stab; auto using quiet_collect_links, quiet_collect_hrefs.
Qed.
Lemma quiet_sort_by_priority urls : stable quiet (Crawler.sort_by_priority urls).
Proof. unfold Crawler.sort_by_priority. stab. Qed.
Lemma quiet_explore_subdomain u urls : stable quiet (Crawler.explore_subdomain cfg web u urls).
Proof.
  unfold Crawler.explore_subdomain. apply (stable_bind quiet); [apply quiet_fetch; done|].
  intros ?. stab.
Qed.
Lemma quiet_seed : stable quiet (Crawler.seed cfg web).
Proof.
  unfold Crawler.seed. apply (stable_bind quiet); [apply quiet_fetch; done|].
  intros ?. stab; auto using quiet_collect_links, quiet_add_main_link.
Qed.

End Quiet.

Section Lift.
Variable cfg : ScraperConfig.
Variable web : string -> option Page.
Context (R : relation CrawlState) `{!PreOrder R}.
Hypothesis quiet_R : ∀ s s', quiet s s' → R s s'.
Hypothesis process_R : ∀ u, stable R (Crawler._process_url cfg web u).

Lemma quiet_stable {A} (m : M A) : stable quiet m → stable R m.
Proof. intros Hm s. apply quiet_R, Hm. Qed.

Lemma crawl_loop_stable fuel urls : stable R (Crawler.crawl_loop cfg web fuel urls).
Proof.
  revert urls. induction fuel as [|fuel IH]; intros urls; simpl; [apply (stable_ret R)|].
  destruct urls as [|u0 urls]; [apply (stable_ret R)|].
  apply (stable_bind R); [apply quiet_stable, quiet_sort_by_priority|intros sorted].
  destruct sorted as [|u rest]; [apply (stable_ret R)|].
  apply (stable_bind R); [apply (stable_gets R)|intros seen].
  destruct seen; [apply IH|].
  apply (stable_bind R); [apply process_R|intros new].
  apply (stable_bind R); [apply (stable_gets R)|intros vis]. apply IH.
Qed.

Lemma crawl_body_stable fuel : stable R (Crawler.crawl_body cfg web fuel).
Proof.
  unfold Crawler.crawl_body.
  apply (stable_bind R); [apply quiet_stable, quiet_seed|intros prio].
  apply (stable_bind R); [apply process_R|intros _].
  apply (stable_bind R); [|intros urls; apply crawl_loop_stable].
  apply (stable_mfold R). intros urls u. cbv beta.
  apply (stable_bind R); [apply (stable_gets R)|intros seen].
  destruct seen; [apply (stable_ret R)|].
  apply (stable_bind R); [apply process_R|intros _].
  apply (stable_bind R); [apply (stable_lift R)|intros _].
  destruct (existsb _ _); [|apply (stable_ret R)].
  apply (stable_try R); [apply quiet_stable, quiet_explore_subdomain|apply (stable_ret R)].
Qed.

Lemma crawl_stable fuel s0 : R s0 (Crawler.crawl cfg web fuel s0).
Proof. apply (crawl_body_stable fuel s0). Qed.

End Lift.

(** The GETs of [_process_url] have pairwise distinct normalized URLs,
    and each of these is in [visited_urls]. *)
Definition fetch_inv (s : CrawlState) : Prop :=
  NoDup (map Scraper.normalize_url (process_fetches s)) ∧
  ∀ u, u ∈ process_fetches s → ∃ k, Scraper.normalize_url u = Some k ∧ k ∈ cs_visited s.

Definition fetch_step (s s' : CrawlState) : Prop :=
  cs_visited s ⊆ cs_visited s' ∧ (fetch_inv s → fetch_inv s').

#[export] Instance fetch_step_preorder : PreOrder fetch_step.
Proof.
  split.
  - intros s. split; [set_solver|done].
  - intros s1 s2 s3 [? ?] [? ?]. split; [set_solver|auto].
Qed.

Lemma quiet_fetch_step s s' : quiet s s' → fetch_step s s'.
Proof.
  intros (Hv & Hf & _ & _). split; [done|].
  intros [Hnd Hin]. unfold fetch_inv. rewrite Hf. split; [done|].
  intros u Hu. destruct (Hin u Hu) as (k & Hk & Hkv). exists k. split; [done|set_solver].
Qed.

(** Only the booking counters change in [booking_gate]. *)
Definition same_frame (s s' : CrawlState) : Prop :=
  cs_visited s' = cs_visited s ∧ process_fetches s' = process_fetches s.

#[export] Instance same_frame_preorder : PreOrder same_frame.
Proof.
  split.
  - intros s. split; done.
  - intros s1 s2 s3 [? ?] [? ?]. split; congruence.
Qed.

Lemma booking_gate_frame cfg url : stable same_frame (Crawler.booking_gate cfg url).
Proof.
  unfold Crawler.booking_gate. stab;
  try (apply stable_modify; intros s; split; reflexivity).
Qed.

Lemma same_frame_fetch_step s s' : same_frame s s' → fetch_step s s'.
Proof.
  intros [Hv Hf]. split; [set_solver|].
  intros [Hnd Hin]. unfold fetch_inv. rewrite Hf, Hv. split; done.
Qed.

Lemma process_fetches_log s site u :
  process_fetches {| cs_visited := cs_visited s; cs_markdown := cs_markdown s;
                     cs_main_links := cs_main_links s;
                     cs_booking_crawled := cs_booking_crawled s;
                     cs_booking_seen := cs_booking_seen s;
                     cs_fetches := (site, u) :: cs_fetches s |} =
  if is_process_fetch (site, u) then u :: process_fetches s else process_fetches s.
Proof. unfold process_fetches. simpl. destruct (is_process_fetch _); reflexivity. Qed.

Lemma process_url_fetch_step cfg web url : stable fetch_step (Crawler._process_url cfg web url).
Proof.
  intros s. unfold Crawler._process_url.
  cbv [bind lift ret gets Crawler.is_visited modify Crawler.add_visited try_except
       Crawler.fetch Crawler.log_fetch].
  destruct (Scraper.normalize_url url) as [n|] eqn:En; [|reflexivity].
  case_bool_decide as Hvis; [reflexivity|].
  set (s1 := {| cs_visited := {[n]} ∪ cs_visited s |}).
  assert (H1 : fetch_step s s1).
  { split; [subst s1; simpl; set_solver|].
    intros [Hnd Hin]. split; [exact Hnd|].
    intros u Hu. destruct (Hin u Hu) as (k & Hk & Hkv). exists k. split; [done|].
    subst s1; simpl. set_solver. }
  destruct (Scraper.is_booking_url url) as [b|]; [|exact H1]. cbn beta iota.
  assert (Hg : same_frame s1 (st_of ((if b then Crawler.booking_gate cfg url
                                      else λ s0 : CrawlState, Done true s0) s1))).
  { destruct b; [apply booking_gate_frame|reflexivity]. }
  destruct ((if b then Crawler.booking_gate cfg url else λ s0 : CrawlState, Done true s0) s1)
    as [go s2|s2]; simpl in Hg |- *;
    [|etrans; [exact H1|apply same_frame_fetch_step; exact Hg]].
  destruct go; simpl; [|etrans; [exact H1|apply same_frame_fetch_step; exact Hg]].
  set (s3 := {| cs_visited := cs_visited s2; cs_fetches := (ProcessFetch, url) :: cs_fetches s2 |}).
  assert (H3 : fetch_step s s3).
  { destruct Hg as [Hv2 Hf2].
    assert (Hv3 : cs_visited s3 = {[n]} ∪ cs_visited s) by (subst s3; simpl; rewrite Hv2; reflexivity).
    assert (Hf3 : process_fetches s3 = url :: process_fetches s).
    { subst s3. rewrite process_fetches_log. simpl. rewrite Hf2. reflexivity. }
    split; [rewrite Hv3; set_solver|].
    intros [Hnd Hin]. unfold fetch_inv. rewrite Hf3, Hv3. split.
    - simpl. constructor; [|exact Hnd].
      rewrite En. intros Hm. apply list_elem_of_In, in_map_iff in Hm.
      destruct Hm as (u & Hu & Hu').
      destruct (Hin u (proj2 (list_elem_of_In _ _) Hu')) as (k & Hk & Hkv).
      rewrite Hu in Hk. injection Hk as <-. contradiction.
    - intros u Hu. apply elem_of_cons in Hu. destruct Hu as [->|Hu].
      + exists n. split; [done|set_solver].
      + destruct (Hin u Hu) as (k & Hk & Hkv). exists k. split; [done|set_solver]. }
  assert (Hq : quiet s3 (st_of ((match web url with
                                 | Some pg => Crawler.extract_links cfg url pg
                                 | None => λ s1 : CrawlState, Done [] s1
                                 end) s3))).
  { destruct (web url); [apply quiet_extract_links|reflexivity]. }
  destruct ((match web url with
             | Some pg => Crawler.extract_links cfg url pg
             | None => λ s1 : CrawlState, Done [] s1
             end) s3); simpl in *;
    (etrans; [exact H3|apply quiet_fetch_step; exact Hq]).
Qed.

Section Booking.
Variable cfg : ScraperConfig.

(** [booking_urls_crawled] is at most [max_booking_urls] plus the number
    of booking domains seen. *)
Definition booking_inv (s : CrawlState) : Prop :=
  (cs_booking_crawled s ≤ max_booking_urls cfg + size (cs_booking_seen s))%nat.

Definition booking_step (s s' : CrawlState) : Prop := booking_inv s → booking_inv s'.

#[export] Instance booking_step_preorder : PreOrder booking_step.
Proof. split; [intros s H; exact H | intros s1 s2 s3 H1 H2 H; auto]. Qed.

Lemma quiet_booking_step s s' : quiet s s' → booking_step s s'.
Proof. intros (_ & _ & Hc & Hs). unfold booking_step, booking_inv. rewrite Hc, Hs. done. Qed.

Lemma booking_gate_step url : stable booking_step (Crawler.booking_gate cfg url).
Proof.
  intros s. unfold Crawler.booking_gate.
  cbv [bind lift ret gets modify Crawler.add_booking_seen Crawler.incr_booking_crawled].
  destruct (urlparse url) as [p|]; [|done].
  unfold booking_step, booking_inv.
  case_bool_decide as Hk; destruct (Nat.leb_spec (max_booking_urls cfg) (cs_booking_crawled s));
    simpl; intros Hi; try lia;
    rewrite size_union; [rewrite size_singleton; lia|set_solver].
Qed.

Lemma process_url_booking_step web url :
  stable booking_step (Crawler._process_url cfg web url).
Proof.
  unfold Crawler._process_url. stab.

  - intros s. apply quiet_booking_step. apply quiet_add_visited.
  - apply booking_gate_step.
  - unfold Crawler.fetch, Crawler.log_fetch. stab.
    apply stable_modify. intros s H. exact H.
  - intros s. apply quiet_booking_step, (quiet_extract_links cfg).
Qed.

End Booking.

End CrawlFacts.

Module ImgCap.
Section Cap.
Variable cfg : ImgConfig.
Variable net : string -> list Outcome.
Variable py_hash : string -> Z.
Variable web : string -> option Img.ImgPage.
Variable bg_match : string -> option string.

Definition exc_st (e : Img.Exc) : DlState := match e with inl s => s | inr s => s end.

(** [len(visited_urls) <= max_pages] *)
Definition cap_ok (st : DlState) : Prop := (size (dl_visited st) ≤ max_pages cfg)%nat.

Lemma for_each_pres {A} (P : DlState -> Prop) (f : DlState -> A -> Img.Exc) l st :
  (∀ st x, P st → P (exc_st (f st x))) → P st → P (exc_st (Img.for_each f l st)).
Proof.
  intros Hf. revert st. induction l as [|x l IH]; intros st Hst; simpl; [done|].
  specialize (Hf st x Hst). destruct (f st x) as [st'|st']; simpl in *; auto.
Qed.

Lemma download_image_visited st u :
  dl_visited (Img._download_image cfg net py_hash st u) = dl_visited st.
Proof.
  unfold Img._download_image, Img.request. simpl.
  repeat (case_match; simpl; try reflexivity).
Qed.

Lemma download_images_visited st :
  dl_visited (Img._download_images cfg net py_hash st) = dl_visited st.
Proof.
  unfold Img._download_images. simpl.
  generalize (elements (dl_image_urls st)). intros l. revert st.
  induction l as [|u l IH]; intros st; simpl; [done|].
  rewrite IH. apply download_image_visited.
Qed.

Lemma img_step_visited u st img : dl_visited (exc_st (Img.img_step u st img)) = dl_visited st.
Proof. unfold Img.img_step. repeat (case_match; simpl; try reflexivity). Qed.

Lemma style_step_visited u st sty :
  dl_visited (exc_st (Img.style_step bg_match u st sty)) = dl_visited st.
Proof. unfold Img.style_step. repeat (case_match; simpl; try reflexivity). Qed.

Lemma img_step_cap u st img : cap_ok st → cap_ok (exc_st (Img.img_step u st img)).
Proof. unfold cap_ok. rewrite img_step_visited. done. Qed.

Lemma style_step_cap u st sty : cap_ok st → cap_ok (exc_st (Img.style_step bg_match u st sty)).
Proof. unfold cap_ok. rewrite style_step_visited. done. Qed.

Lemma process_url_cap fuel st u b :
  cap_ok st → cap_ok (Img._process_url cfg net py_hash web bg_match fuel st u b).
Proof.
  revert st u b. induction fuel as [|fuel IH]; intros st u b Hst;
    cbn -[Img.is_keyword_link Img.for_each Img.mark_visited Img._download_images
          Img.img_step Img.style_step Img.domain]; [done|].
  destruct (Nat.leb_spec (max_pages cfg) (size (dl_visited st))); [done|].
  case_bool_decide as Hv; [done|].
  unfold cap_ok. rewrite download_images_visited.
  assert (Hm : cap_ok (Img.mark_visited st u)).
  { unfold cap_ok, Img.mark_visited. simpl.
    rewrite size_union; [rewrite size_singleton; lia|set_solver]. }
  destruct (web u) as [page|]; [|exact Hm].
  pose proof (for_each_pres cap_ok _ (Img.pg_imgs page) _ (img_step_cap u) Hm) as H1.
  destruct (Img.for_each (Img.img_step u) _ _) as [s1|s1]; [exact H1|]; simpl in H1.
  pose proof (for_each_pres cap_ok _ (Img.pg_styles page) _ (style_step_cap u) H1) as H2.
  destruct (Img.for_each (Img.style_step bg_match u) _ _) as [s2|s2]; [exact H2|]; simpl in H2.
  destruct b; [|exact H2].
  match goal with
  | |- context [Img.for_each ?f ?l s2] => pose proof (for_each_pres cap_ok f l s2) as H3
  end.
  destruct (Img.for_each _ _ s2); apply H3; auto;
    intros st' [href text] Hst'; repeat (case_match; simpl; auto).
Qed.

Lemma identify_visited st u :
  dl_visited (Img._identify_priority_pages cfg web st u) = dl_visited st.
Proof.
  unfold Img._identify_priority_pages. destruct (web u) as [page|]; [|done].
  match goal with
  | |- context [Img.for_each ?f ?l st] =>
      pose proof (for_each_pres (λ st', dl_visited st' = dl_visited st) f l st) as H
  end.
  destruct (Img.for_each _ _ _); apply H; auto;
    intros st' [href text] Hst'; repeat (case_match; simpl; auto).
Qed.

Lemma crawl_cap st0 : cap_ok (snd (Img.crawl cfg net py_hash web bg_match st0)).
Proof.
  unfold Img.crawl. cbv zeta. cbn [snd].
  match goal with
  | |- cap_ok (fold_left ?f (dl_priority_pages ?st) ?st) =>
      assert (Hf : ∀ l s, cap_ok s → cap_ok (fold_left f l s));
      [|apply Hf]
  end.
  - induction l as [|u l IH]; intros st Hst; cbn [fold_left]; [done|].
    apply IH. case_match; [apply process_url_cap|]; done.
  - apply process_url_cap. unfold cap_ok. rewrite identify_visited.
    cbn [dl_visited]. rewrite size_empty. lia.
Qed.

End Cap.
End ImgCap.

(** C2 (counterexample): the text crawl has no page cap. A landing page
    whose menu links to ten pages gives eleven entries in the url-to-text
    mapping; [WebsiteScraper] takes no [max_pages] at all. *)
Lemma text_crawl_no_page_cap :
  size (cs_markdown (Crawler.crawl hotel_cfg menu_web 100 scraper_init)) = 11%nat.
Proof. vm_compute. reflexivity. Qed.

(** C2 (amended): the page cap is the [max_pages] of the image crawl:
    whatever the site and the network, [ImageDownloader.crawl] ends with
    at most [max_pages] URLs in [visited_urls]. *)
Theorem image_crawl_page_cap (cfg : ImgConfig) (net : string -> list Outcome)
    (py_hash : string -> Z) (web : string -> option Img.ImgPage)
    (bg_match : string -> option string) (st0 : DlState) :
  (size (dl_visited (snd (Img.crawl cfg net py_hash web bg_match st0))) ≤ max_pages cfg)%nat.
Proof. apply ImgCap.crawl_cap. Qed.

(** C3 (counterexample): the landing page is fetched twice, once by the
    link-extraction pass at the top of [crawl] and once by
    [_process_url(base_url)]. *)
Lemma crawl_fetches_base_twice :
  cs_fetches (Crawler.crawl hotel_cfg home_web 100 scraper_init) =
    [(ProcessFetch, "https://www.hotel.com"); (SeedFetch, "https://www.hotel.com")].
Proof. vm_compute. reflexivity. Qed.

(** C3 (amended): [visited_urls] only grows during a crawl, and in a crawl
    session the GETs issued by [_process_url] are for pairwise distinct
    normalized URLs, each of which is in [visited_urls]. *)
Theorem crawl_process_fetches_once (cfg : ScraperConfig) (web : string -> option Page)
    (fuel : nat) (s0 : CrawlState) :
  cs_visited s0 ⊆ cs_visited (Crawler.crawl cfg web fuel s0) ∧
  CrawlFacts.fetch_inv (Crawler.crawl cfg web fuel scraper_init).
Proof.
  split.
  - pose proof (@CrawlFacts.crawl_stable cfg web CrawlFacts.fetch_step CrawlFacts.fetch_step_preorder
             CrawlFacts.quiet_fetch_step (CrawlFacts.process_url_fetch_step cfg web) fuel s0)
      as [Hv _].
    exact Hv.
  - pose proof (@CrawlFacts.crawl_stable cfg web CrawlFacts.fetch_step CrawlFacts.fetch_step_preorder
             CrawlFacts.quiet_fetch_step (CrawlFacts.process_url_fetch_step cfg web)
             fuel scraper_init) as [_ Hi].
    apply Hi. split; [constructor|]. intros u Hu. unfold CrawlFacts.process_fetches in Hu.
    simpl in Hu. apply not_elem_of_nil in Hu. contradiction.
Qed.

(** C4 (counterexample): with [max_booking_urls = 1], two booking links
    on two booking domains are both crawled and [booking_urls_crawled]
    ends at 2. *)
Lemma booking_count_exceeds_max :
  cs_booking_crawled (Crawler.crawl book_cfg book_web 100 scraper_init) = 2%nat ∧
  max_booking_urls book_cfg = 1%nat.
Proof. vm_compute. split; reflexivity. Qed.

(** C4 (amended): for a booking URL that [_process_url] has not visited,
    (1) when its netloc is already in [booking_domains_seen] and
    [booking_urls_crawled >= max_booking_urls], the URL is only marked
    visited and nothing is fetched; (2) when its netloc is new, the netloc
    is added to [booking_domains_seen] and [booking_urls_crawled] is
    incremented, whatever the GET then gives; (3) a crawl keeps
    [booking_urls_crawled <= max_booking_urls + len(booking_domains_seen)]. *)
Theorem booking_throttle (cfg : ScraperConfig) (web : string -> option Page)
    (url n : string) (p : ParseResult) (s : CrawlState) :
  Scraper.normalize_url url = Some n →
  n ∉ cs_visited s →
  Scraper.is_booking_url url = Some true →
  urlparse url = Some p →
  (netloc p ∈ cs_booking_seen s → (max_booking_urls cfg ≤ cs_booking_crawled s)%nat →
     Crawler._process_url cfg web url s =
       Done [] (mkCS ({[n]} ∪ cs_visited s) (cs_markdown s) (cs_main_links s)
                     (cs_booking_crawled s) (cs_booking_seen s) (cs_fetches s))) ∧
  (netloc p ∉ cs_booking_seen s →
     cs_booking_seen (CrawlFacts.st_of (Crawler._process_url cfg web url s)) =
       {[netloc p]} ∪ cs_booking_seen s ∧
     cs_booking_crawled (CrawlFacts.st_of (Crawler._process_url cfg web url s)) =
       S (cs_booking_crawled s)) ∧
  (∀ fuel s0, CrawlFacts.booking_inv cfg s0 →
     CrawlFacts.booking_inv cfg (Crawler.crawl cfg web fuel s0)).
Proof.
  intros En Hn Hb Hp. split; [|split].
  - intros Hk Hmax. unfold Crawler._process_url, Crawler.booking_gate.
    cbv [bind lift ret gets Crawler.is_visited modify Crawler.add_visited].
    rewrite En. rewrite bool_decide_false by done. rewrite Hb, Hp.
    cbn -[Crawler.extract_links].
    rewrite bool_decide_true by done.
    destruct (Nat.leb_spec (max_booking_urls cfg) (cs_booking_crawled s)); [|lia].
    reflexivity.
  - intros Hk. unfold Crawler._process_url, Crawler.booking_gate.
    cbv [bind lift ret gets Crawler.is_visited modify Crawler.add_visited
         Crawler.add_booking_seen Crawler.incr_booking_crawled try_except
         Crawler.fetch Crawler.log_fetch].
    rewrite En. rewrite bool_decide_false by done. rewrite Hb, Hp.
    cbn -[Crawler.extract_links].
    rewrite bool_decide_false by done. cbn -[Crawler.extract_links].
    destruct (web url) as [pg|]; [|split; reflexivity].
    match goal with
    | |- context [Crawler.extract_links cfg url pg ?s3] =>
        pose proof (CrawlFacts.quiet_extract_links cfg url pg s3) as (_ & _ & Hc & Hs);
        destruct (Crawler.extract_links cfg url pg s3)
    end;
    cbn in Hc, Hs |- *; rewrite Hc, Hs; split; reflexivity.
  - intros fuel s0.
    apply (@CrawlFacts.crawl_stable cfg web (CrawlFacts.booking_step cfg)
             (CrawlFacts.booking_step_preorder cfg) (CrawlFacts.quiet_booking_step cfg)
             (CrawlFacts.process_url_booking_step cfg web)).
Qed.

(** A booking URL on a booking domain not seen yet: the domain is recorded
    and [booking_urls_crawled] goes from 0 to 1. *)
Lemma booking_throttle_witness :
  cs_booking_crawled
    (CrawlFacts.st_of (Crawler._process_url book_cfg home_web "https://booking.hotel.com/rooms"
                         scraper_init)) = 1%nat.
Proof.
  destruct (booking_throttle book_cfg home_web "https://booking.hotel.com/rooms"
              "https://booking.hotel.com/rooms"
              {| scheme := "https"; netloc := "booking.hotel.com"; path := "/rooms";
                 params := ""; query := ""; fragment := "" |} scraper_init)
    as (_ & Hnew & _).
  - vm_compute. reflexivity.
  - apply not_elem_of_empty.
  - vm_compute. reflexivity.
  - vm_compute. reflexivity.
  - apply Hnew. apply not_elem_of_empty.
Defined.

(* ================================================================== *)
(** * Properties of the file and folder names *)
(* ================================================================== *)

Module NameFacts.

Definition safe_char (c : ascii) : bool := negb (Names.unsafe_char c).

(** [String.append] is [simpl never] under stdpp: its two equations. *)
Lemma append_cons x a b : String x a ++ b = String x (a ++ b).
Proof. reflexivity. Qed.
Lemma append_empty b : "" ++ b = b.
Proof. reflexivity. Qed.
Lemma append_empty_r a : a ++ "" = a.
Proof. induction a as [|x a IH]; [reflexivity|]. rewrite append_cons, IH. reflexivity. Qed.

Lemma has_char_cons c x r : Str.has_char c (String x r) = Ascii.eqb c x || Str.has_char c r.
Proof.
  unfold Str.has_char. simpl. destruct (ascii_dec c x) as [<-|Hne].
  - rewrite Ascii.eqb_refl. destruct r; reflexivity.
  - apply Ascii.eqb_neq in Hne. rewrite Hne. reflexivity.
Qed.

Lemma has_char_app c a b : Str.has_char c (a ++ b) = Str.has_char c a || Str.has_char c b.
Proof.
  induction a as [|x a IH]; [reflexivity|].
  change (String x a ++ b) with (String x (a ++ b)).
  rewrite !has_char_cons, IH. apply orb_assoc.
Qed.

Lemma has_char_take c n s : Str.has_char c s = false → Str.has_char c (Str.take n s) = false.
Proof.
  unfold Str.take. revert n. induction s as [|x s IH]; intros n H; destruct n; try reflexivity.
  simpl. rewrite has_char_cons in *. apply orb_false_iff in H as [H1 H2].
  rewrite H1, IH; done.
Qed.

Lemma length_take n s : (String.length (Str.take n s) ≤ n)%nat.
Proof.
  unfold Str.take. revert n. induction s as [|x s IH]; intros n; destruct n; simpl; try lia.
  specialize (IH n). lia.
Qed.

Lemma all_chars_app (P : ascii -> bool) a b :
  UrlParse.all_chars P (a ++ b) = UrlParse.all_chars P a && UrlParse.all_chars P b.
Proof. induction a as [|x a IH]; simpl; [reflexivity|]. rewrite IH. apply andb_assoc. Qed.

Lemma safe_no_slash s : UrlParse.all_chars safe_char s = true → Str.has_char "/" s = false.
Proof.
  induction s as [|x s IH]; intros H; [reflexivity|].
  simpl in H. apply andb_prop in H as [Hx Hs].
  rewrite has_char_cons, IH by exact Hs.
  destruct (Ascii.eqb_spec "/" x) as [<-|]; [discriminate|reflexivity].
Qed.

Lemma sanitize_safe s : UrlParse.all_chars safe_char (Names.sanitize s) = true.
Proof.
  induction s as [|x s IH]; [reflexivity|]. simpl. rewrite IH.
  unfold safe_char. destruct (Names.unsafe_char x) eqn:E; [reflexivity|]. rewrite E. reflexivity.
Qed.

Lemma replace_dots_slash s : Str.has_char "/" (Names.replace_dots s) = Str.has_char "/" s.
Proof.
  induction s as [|x s IH]; [reflexivity|]. simpl. rewrite !has_char_cons, IH.
  destruct (Ascii.eqb_spec x "."); [subst|]; reflexivity.
Qed.

(** The netloc [urlsplit] cuts ends before the first '/'. *)
Lemma netloc_end_no_slash s : Str.has_char "/" (Str.take (UrlParse.netloc_end s) s) = false.
Proof.
  unfold Str.take. induction s as [|x s IH]; [reflexivity|]. simpl.
  destruct (Ascii.eqb x "/" || Ascii.eqb x "?" || Ascii.eqb x "#")%bool eqn:E; [reflexivity|].
  simpl. rewrite has_char_cons, IH.
  destruct (Ascii.eqb_spec "/" x) as [<-|]; [discriminate|reflexivity].
Qed.

Lemma urlparse_netloc_no_slash url p : urlparse url = Some p → Str.has_char "/" (netloc p) = false.
Proof.
  intros Hsome. unfold urlparse, UrlParse.urlsplit in Hsome.
  destruct (UrlParse.split_scheme _) as [sch url2].
  destruct (Str.startswith "//" url2).
  - unfold UrlParse.split_netloc in Hsome. cbv zeta in Hsome.
    destruct (UrlParse.bad_brackets _); [discriminate|].
    repeat case_match; simplify_eq/=; apply netloc_end_no_slash.
  - destruct (UrlParse.bad_brackets _); [discriminate|].
    repeat case_match; simplify_eq/=; reflexivity.
Qed.

Lemma startswith_dot_take n s : Str.startswith "." s = false → Str.startswith "." (Str.take n s) = false.
Proof.
  unfold Str.startswith, Str.take. intros H. destruct s as [|x s], n; cbn -[ascii_dec] in *;
    try reflexivity.
  destruct (ascii_dec "." x); [|reflexivity]. destruct s; discriminate.
Qed.

Lemma startswith_dot_folder net rest :
  Str.startswith "." rest = false → Str.startswith "." (Names.replace_dots net ++ rest) = false.
Proof.
  intros H. destruct net as [|x net]; [exact H|]. unfold Str.startswith.
  cbn [Names.replace_dots]. rewrite append_cons. cbn -[ascii_dec].
  destruct (Ascii.eqb_spec x ".") as [->|Hx]; [reflexivity|].
  destruct (ascii_dec "." x) as [E|]; [congruence|reflexivity].
Qed.

Lemma digit_safe (n : Z) : safe_char (ascii_of_nat (48 + Z.to_nat (n mod 10))) = true.
Proof.
  pose proof (Z.mod_pos_bound n 10) as Hb.
  assert (Hk : (Z.to_nat (n mod 10) < 10)%nat) by lia.
  revert Hk. generalize (Z.to_nat (n mod 10)). intros k Hk.
  do 10 (destruct k as [|k]; [reflexivity|]). lia.
Qed.

Lemma str_of_Z_safe n : UrlParse.all_chars safe_char (str_of_Z n) = true.
Proof.
  unfold str_of_Z. assert (H0 : UrlParse.all_chars safe_char "" = true) by reflexivity.
  revert n H0. generalize "". generalize 20%nat.
  induction n as [|f IH]; intros acc m Hacc; cbn [dec_string]; [exact Hacc|].
  set (d := String (ascii_of_nat (48 + Z.to_nat (m mod 10))) EmptyString).
  assert (Hd : UrlParse.all_chars safe_char d = true).
  { subst d. cbn [UrlParse.all_chars]. rewrite digit_safe. reflexivity. }
  assert (Hda : UrlParse.all_chars safe_char (d ++ acc) = true).
  { rewrite all_chars_app, Hd, Hacc. reflexivity. }
  destruct (m <? 10)%Z; [exact Hda|apply IH, Hda].
Qed.

Lemma length_app a b : String.length (a ++ b) = (String.length a + String.length b)%nat.
Proof. induction a as [|x a IH]; [reflexivity|]. rewrite append_cons. simpl. rewrite IH. reflexivity. Qed.

Lemma substring_app_l a b m : String.substring (String.length a) m (a ++ b) = String.substring 0 m b.
Proof. induction a as [|x a IH]; [reflexivity|]. rewrite append_cons. simpl. exact IH. Qed.

Lemma substring_all b : String.substring 0 (String.length b) b = b.
Proof. induction b as [|x b IH]; simpl; [reflexivity|]. rewrite IH. reflexivity. Qed.

Lemma endswith_app suf s : Str.endswith suf (s ++ suf) = true.
Proof.
  unfold Str.endswith. rewrite length_app.
  replace (String.length s + String.length suf - String.length suf)%nat with (String.length s) by lia.
  rewrite substring_app_l, substring_all, String.eqb_refl.
  apply andb_true_intro. split; [apply Nat.leb_le; lia|reflexivity].
Qed.

Lemma append_assoc a b c : (a ++ b) ++ c = a ++ (b ++ c).
Proof. induction a as [|x a IH]; [reflexivity|]. rewrite !append_cons, IH. reflexivity. Qed.

Lemma startswith_no_char c s : Str.has_char c s = false → Str.startswith (String c "") s = false.
Proof.
  unfold Str.has_char, Str.startswith. destruct s as [|x s]; [reflexivity|].
  cbn [Str.contains]. intros H. apply orb_false_iff in H as [H _]. exact H.
Qed.

End NameFacts.

(** X1: the folder [ImageDownloader] derives from a URL that [urlparse]
    accepts has at most 100 characters, contains no '/' and does not start
    with '.', so it names one directory directly under the images
    directory (never '.', '..' or a nested path). *)
Theorem folder_name_single_component (url : string) (p : ParseResult) :
  urlparse url = Some p →
  ∃ folder, Names._get_folder_name_from_url url = Some folder ∧
    (String.length folder ≤ 100)%nat ∧ Str.has_char "/" folder = false ∧
    Str.startswith "." folder = false.
Proof.
  intros Hp. unfold Names._get_folder_name_from_url. rewrite Hp. cbn [mbind option_bind].
  cbv zeta.
  match goal with
  | |- ∃ folder, Some (if _ then _ else ?x) = Some folder ∧ _ =>
      assert (Hx : Str.has_char "/" x = false ∧ Str.startswith "." x = false)
  end.
  { pose proof (NameFacts.urlparse_netloc_no_slash url p Hp) as Hn.
    destruct (negb _ && negb _)%bool.
    - split.
      + rewrite NameFacts.has_char_app, NameFacts.replace_dots_slash, Hn,
          NameFacts.append_cons, NameFacts.append_empty, NameFacts.has_char_cons.
        change (Ascii.eqb "/" "_") with false. cbn [orb].
        match goal with |- Str.has_char _ (if _ then ?a else ?b) = _ =>
          assert (Hs : Str.has_char "/" b = false) by
            apply NameFacts.safe_no_slash, NameFacts.sanitize_safe end.
        destruct (_ <? _)%nat; [apply NameFacts.has_char_take|]; exact Hs.
      + apply NameFacts.startswith_dot_folder. reflexivity.
    - split.
      + rewrite NameFacts.replace_dots_slash. exact Hn.
      + rewrite <- (NameFacts.append_empty_r (Names.replace_dots (netloc p))).
        apply NameFacts.startswith_dot_folder. reflexivity. }
  destruct Hx as [Hs Hd].
  match goal with
  | |- ∃ folder, Some (if _ then _ else ?x) = Some folder ∧ _ => set (f := x) in *
  end.
  eexists. split; [reflexivity|].
  destruct (Nat.ltb_spec 100 (String.length f)).
  - split; [apply NameFacts.length_take|].
    split; [apply NameFacts.has_char_take, Hs|apply NameFacts.startswith_dot_take, Hd].
  - split; [lia|]. split; assumption.
Qed.

Lemma folder_name_single_component_witness :
  ∃ folder, Names._get_folder_name_from_url "https://www.hotel.com/../../etc" = Some folder ∧
    (String.length folder ≤ 100)%nat ∧ Str.has_char "/" folder = false ∧
    Str.startswith "." folder = false.
Proof.
  apply (folder_name_single_component "https://www.hotel.com/../../etc"
           {| scheme := "https"; netloc := "www.hotel.com"; path := "/../../etc";
              params := ""; query := ""; fragment := "" |}).
  vm_compute. reflexivity.
Defined.

(** X2: when [urlparse] accepts the URL, [save_markdown_content] writes
    to "MCP/data/scraped/" followed by the netloc with the characters
    backslash, slash, star, question mark, colon, double quote,
    less-than, greater-than and bar replaced by '_', then '_', the
    timestamp and ".json": a name with none of those characters, so the
    file stays directly inside the output directory whatever the netloc.
    It returns that path when the write succeeds and [None] when it
    fails. *)
Theorem save_markdown_content_path (write_ok : string → bool) (url : string) (now : Z)
    (p : ParseResult) :
  urlparse url = Some p →
  let name := Names.sanitize (netloc p) ++ "_" ++ str_of_Z now ++ ".json" in
  UrlParse.all_chars (fun c => negb (Names.unsafe_char c)) name = true ∧
  Names.save_markdown_content write_ok url now =
    if write_ok ("MCP/data/scraped/" ++ name) then Some ("MCP/data/scraped/" ++ name) else None.
Proof.
  intros Hp name.
  assert (Hsafe : UrlParse.all_chars NameFacts.safe_char name = true).
  { subst name. rewrite !NameFacts.all_chars_app, NameFacts.sanitize_safe, NameFacts.str_of_Z_safe.
    reflexivity. }
  split; [exact Hsafe|].
  unfold Names.save_markdown_content. rewrite Hp. cbn [mbind option_bind]. cbv zeta.
  fold name. unfold Names.path_join.
  rewrite (NameFacts.startswith_no_char "/" name (NameFacts.safe_no_slash name Hsafe)).
  reflexivity.
Qed.

Lemma save_markdown_content_path_witness :
  UrlParse.all_chars (fun c => negb (Names.unsafe_char c)) "www.hotel.com_8080_1700000000.json"
    = true ∧
  Names.save_markdown_content (fun p => (String.length (basename p) <=? 255)%nat)
    "https://www.hotel.com:8080/" 1700000000 =
    (if (String.length (basename "MCP/data/scraped/www.hotel.com_8080_1700000000.json") <=? 255)%nat
     then Some "MCP/data/scraped/www.hotel.com_8080_1700000000.json" else None).
Proof.
  exact (save_markdown_content_path (fun p => (String.length (basename p) <=? 255)%nat)
           "https://www.hotel.com:8080/" 1700000000
           {| scheme := "https"; netloc := "www.hotel.com:8080"; path := "/";
              params := ""; query := ""; fragment := "" |} eq_refl).
Defined.

(* ================================================================== *)
(** * Properties of the pipeline of [main.py] *)
(* ================================================================== *)

Module PipelineFacts.

(** The markdown a crawl from [u] collects. *)
Definition crawl_md (w : World) (u : string) (mb : nat) : gmap string string :=
  cs_markdown (Crawler.crawl {| base_url := u; max_booking_urls := mb |}
                 (w_web w) (w_fuel w) scraper_init).

Lemma new_scraper_some url mb sc :
  Pipeline.new_scraper url mb = Some sc →
  sc = {| base_url := url; max_booking_urls := mb |} ∧ ∃ p, urlparse url = Some p.
Proof.
  unfold Pipeline.new_scraper. destruct (urlparse url) as [p|]; cbn [mbind option_bind];
    [|discriminate]. intros [= <-]. eauto.
Qed.

Lemma nonempty_tail (m : gmap string string) c :
  (if bool_decide (m = ∅) then None else Some m) = Some c → c ≠ ∅ ∧ c = m.
Proof.
  destruct (bool_decide (m = ∅)) eqn:E; [discriminate|].
  intros [= <-]. apply bool_decide_eq_false in E. auto.
Qed.

Lemma get_website_markdown_some w url mb c :
  Pipeline.get_website_markdown w url mb = Some c →
  c ≠ ∅ ∧ (∃ p, urlparse url = Some p) ∧
  ∃ code final, w_head w url = HeadResponse code final ∧ (200 ≤ code < 300)%Z ∧
    (((final = url ∨ final = "") ∧ c = crawl_md w url mb) ∨
     (final ≠ url ∧ final ≠ "" ∧ ∃ line, w_answer w = Some line ∧
        (Str.lower (py_strip line) = "y" ∨ Str.lower (py_strip line) = "yes") ∧
        c = crawl_md w final mb)).
Proof.
  intros H. unfold Pipeline.get_website_markdown in H.
  destruct (Pipeline.new_scraper url mb) as [sc|] eqn:Ens; cbn [mbind option_bind] in H;
    [|discriminate].
  apply new_scraper_some in Ens as [-> Hp].
  unfold Pipeline.validate_url in H.
  destruct (w_head w url) as [code final| | | |] eqn:Eh;
    cbv beta iota zeta delta [negb] in H; try discriminate.
  destruct ((200 <=? code)%Z && (code <? 300)%Z) eqn:Ec;
    cbv beta iota zeta delta [negb] in H; [|discriminate].
  apply andb_prop in Ec as [Ec1 Ec2]. apply Z.leb_le in Ec1. apply Z.ltb_lt in Ec2.
  destruct (String.eqb final url) eqn:Ef; cbv beta iota zeta delta [negb] in H.
  - apply String.eqb_eq in Ef. cbn [mbind option_bind] in H.
    apply nonempty_tail in H as [Hc ->]. split; [exact Hc|]. split; [exact Hp|].
    exists code, final. split; [reflexivity|]. split; [lia|]. left. auto.
  - apply String.eqb_neq in Ef.
    destruct (String.eqb final "") eqn:Ee; cbv beta iota zeta delta [negb] in H.
    + apply String.eqb_eq in Ee. cbn [mbind option_bind] in H.
      apply nonempty_tail in H as [Hc ->]. split; [exact Hc|]. split; [exact Hp|].
      exists code, final. split; [reflexivity|]. split; [lia|]. left. auto.
    + apply String.eqb_neq in Ee.
      destruct (w_answer w) as [line|] eqn:Ea; cbn [mbind option_bind] in H; [|discriminate].
      destruct (String.eqb (Str.lower (py_strip line)) "y" ||
                String.eqb (Str.lower (py_strip line)) "yes") eqn:Ey; [|discriminate].
      destruct (Pipeline.new_scraper final mb) as [sc|] eqn:Ens2; cbn [mbind option_bind] in H;
        [|discriminate].
      apply new_scraper_some in Ens2 as [-> _].
      apply nonempty_tail in H as [Hc ->]. split; [exact Hc|]. split; [exact Hp|].
      exists code, final. split; [reflexivity|]. split; [lia|]. right.
      split; [exact Ef|]. split; [exact Ee|]. exists line. split; [reflexivity|].
      split; [|reflexivity].
      apply orb_prop in Ey as [Ey|Ey]; apply String.eqb_eq in Ey; auto.
Qed.

Lemma rfind_none c s : Str.has_char c s = false → Str.rfind c s = None.
Proof.
  induction s as [|x s IH]; intros H; [reflexivity|].
  rewrite NameFacts.has_char_cons in H. apply orb_false_iff in H as [Hx Hs].
  cbn [Str.rfind]. rewrite IH by exact Hs.
  destruct (Ascii.eqb_spec x c) as [->|]; [rewrite Ascii.eqb_refl in Hx; discriminate|reflexivity].
Qed.

Lemma rfind_last c a b :
  Str.has_char c b = false → Str.rfind c (a ++ String c b) = Some (String.length a).
Proof.
  intros Hb. induction a as [|x a IH].
  - cbn [Str.rfind]. rewrite NameFacts.append_empty. cbn [Str.rfind].
    rewrite rfind_none by exact Hb. rewrite Ascii.eqb_refl. reflexivity.
  - rewrite NameFacts.append_cons. cbn [Str.rfind]. rewrite IH. reflexivity.
Qed.

Lemma substring_app_shift a t k m :
  String.substring (String.length a + k) m (a ++ t) = String.substring k m t.
Proof. induction a as [|x a IH]; [reflexivity|]. rewrite NameFacts.append_cons. exact IH. Qed.

Lemma basename_last a name :
  Str.has_char "/" name = false → basename (a ++ String "/" name) = name.
Proof.
  intros Hn. unfold basename. rewrite rfind_last by exact Hn. unfold Str.drop.
  rewrite NameFacts.length_app. cbn [String.length].
  replace (String.length a + S (String.length name) - S (String.length a))%nat
    with (String.length name) by lia.
  rewrite <- Nat.add_1_r, substring_app_shift. apply NameFacts.substring_all.
Qed.

Lemma structured_path name :
  Str.has_char "/" name = false →
  Names.path_join Names.structured_dir (basename ("MCP/data/scraped/" ++ name)) =
  "MCP/data/structured/" ++ name.
Proof.
  intros Hn.
  change ("MCP/data/scraped/" ++ name) with ("MCP/data/scraped" ++ String "/" name).
  rewrite basename_last by exact Hn.
  unfold Names.path_join at 1. rewrite (NameFacts.startswith_no_char "/" name Hn).
  reflexivity.
Qed.

Lemma save_markdown_name write_ok url now :
  (∃ p, urlparse url = Some p) →
  ∃ name, Str.has_char "/" name = false ∧ name ≠ "" ∧
    Names.save_markdown_content write_ok url now =
      if write_ok ("MCP/data/scraped/" ++ name) then Some ("MCP/data/scraped/" ++ name)
      else None.
Proof.
  intros [p Hp]. unfold Names.save_markdown_content. rewrite Hp. cbn [mbind option_bind].
  cbv zeta.
  set (name := Names.sanitize (netloc p) ++ "_" ++ str_of_Z now ++ ".json").
  assert (Hsafe : UrlParse.all_chars NameFacts.safe_char name = true).
  { subst name. rewrite !NameFacts.all_chars_app, NameFacts.sanitize_safe,
      NameFacts.str_of_Z_safe. reflexivity. }
  pose proof (NameFacts.safe_no_slash name Hsafe) as Hn.
  exists name. split; [exact Hn|]. split.
  - intros He. assert (Hl := f_equal String.length He). subst name.
    rewrite !NameFacts.length_app in Hl. cbn in Hl. lia.
  - unfold Names.path_join. rewrite (NameFacts.startswith_no_char "/" name Hn).
    reflexivity.
Qed.

Lemma process_hotel_unfold w url mb mw mh ms mp :
  Pipeline.process_hotel w url mb mw mh ms mp =
  match Pipeline.get_website_markdown w url mb with
  | None => (false, None)
  | Some c =>
      if bool_decide (c = ∅) then (false, None) else
      match Pipeline.structure_content w
              (Names.save_markdown_content (w_write_ok w) url (w_now w)) with
      | None => (false, None)
      | Some sp => if String.eqb sp "" then (false, None)
                   else (true, Some (Pipeline.download_images w sp mw mh ms mp))
      end
  end.
Proof. reflexivity. Qed.

(** Once the markdown is there, [process_hotel] succeeds exactly when
    the two writes and the environment checks do. *)
Lemma process_hotel_some w url mb mw mh ms mp c :
  Pipeline.get_website_markdown w url mb = Some c →
  ∃ name, name ≠ "" ∧ Str.has_char "/" name = false ∧
    Names.save_markdown_content (w_write_ok w) url (w_now w) =
      (if w_write_ok w ("MCP/data/scraped/" ++ name)
       then Some ("MCP/data/scraped/" ++ name) else None) ∧
    Pipeline.process_hotel w url mb mw mh ms mp =
      if w_write_ok w ("MCP/data/scraped/" ++ name) && w_api_ready w &&
         w_write_ok w ("MCP/data/structured/" ++ name)
      then (true, Some (Pipeline.download_images w ("MCP/data/structured/" ++ name) mw mh ms mp))
      else (false, None).
Proof.
  intros Hg.
  destruct (PipelineFacts.get_website_markdown_some w url mb c Hg) as (Hc & Hp & _).
  destruct (PipelineFacts.save_markdown_name (w_write_ok w) url (w_now w) Hp)
    as (name & Hn & Hne & Hs).
  exists name. split; [exact Hne|]. split; [exact Hn|]. split; [exact Hs|].
  rewrite PipelineFacts.process_hotel_unfold, Hg, bool_decide_false by exact Hc.
  rewrite Hs. unfold Pipeline.structure_content.
  destruct (w_write_ok w ("MCP/data/scraped/" ++ name)); cbn [mbind option_bind andb];
    [|reflexivity].
  destruct (w_api_ready w); cbn [negb andb]; [|reflexivity].
  cbv zeta. rewrite PipelineFacts.structured_path by exact Hn.
  destruct (w_write_ok w ("MCP/data/structured/" ++ name)); [|reflexivity].
  destruct (String.eqb_spec ("MCP/data/structured/" ++ name) ""); [discriminate|reflexivity].
Qed.

End PipelineFacts.

(** X5: once [get_website_markdown] returns content, [process_hotel]
    writes the markdown to "MCP/data/scraped/<name>" and the structured
    content to "MCP/data/structured/<name>" under the same non-empty name
    without a '/'; it returns [True], whatever the image download gives,
    exactly when both writes succeed and the structuring step's
    environment checks pass, and then it calls [download_images] on the
    structured file; otherwise it returns [False] without downloading. *)
Theorem process_hotel_success (w : World) (url : string) (mb : nat)
    (mw mh ms : Z) (mp : nat) (c : gmap string string) :
  Pipeline.get_website_markdown w url mb = Some c →
  ∃ name, name ≠ "" ∧ Str.has_char "/" name = false ∧
    Names.save_markdown_content (w_write_ok w) url (w_now w) =
      (if w_write_ok w ("MCP/data/scraped/" ++ name)
       then Some ("MCP/data/scraped/" ++ name) else None) ∧
    Pipeline.process_hotel w url mb mw mh ms mp =
      if w_write_ok w ("MCP/data/scraped/" ++ name) && w_api_ready w &&
         w_write_ok w ("MCP/data/structured/" ++ name)
      then (true, Some (Pipeline.download_images w ("MCP/data/structured/" ++ name) mw mh ms mp))
      else (false, None).
Proof. apply PipelineFacts.process_hotel_some. Qed.

Lemma process_hotel_success_witness :
  ∃ name, name ≠ "" ∧ Str.has_char "/" name = false ∧
    Names.save_markdown_content (w_write_ok redirect_world) "https://www.hotel.com"
      (w_now redirect_world) =
      (if w_write_ok redirect_world ("MCP/data/scraped/" ++ name)
       then Some ("MCP/data/scraped/" ++ name) else None) ∧
    Pipeline.process_hotel redirect_world "https://www.hotel.com" 5 800 600 50 20 =
      if w_write_ok redirect_world ("MCP/data/scraped/" ++ name) && w_api_ready redirect_world &&
         w_write_ok redirect_world ("MCP/data/structured/" ++ name)
      then (true, Some (Pipeline.download_images redirect_world
                          ("MCP/data/structured/" ++ name) 800 600 50 20))
      else (false, None).
Proof.
  apply (process_hotel_success redirect_world "https://www.hotel.com" 5 800 600 50 20
           (PipelineFacts.crawl_md redirect_world "https://www.hotel.com/" 5)).
  vm_compute. reflexivity.
Defined.

(** X6: [process_hotel] returns [False], and never reaches the image
    download, exactly when [get_website_markdown] returns [None], the
    structuring step's environment checks fail, the markdown file cannot
    be written, or the structured file cannot be written. *)
Theorem process_hotel_failure (w : World) (url : string) (mb : nat) (mw mh ms : Z) (mp : nat) :
  Pipeline.process_hotel w url mb mw mh ms mp = (false, None) ↔
  Pipeline.get_website_markdown w url mb = None ∨ w_api_ready w = false ∨
  Names.save_markdown_content (w_write_ok w) url (w_now w) = None ∨
  (∃ path, Names.save_markdown_content (w_write_ok w) url (w_now w) = Some path ∧
     w_write_ok w (Names.path_join Names.structured_dir (basename path)) = false).
Proof.
  destruct (Pipeline.get_website_markdown w url mb) as [c|] eqn:Hg.
  2:{ rewrite PipelineFacts.process_hotel_unfold, Hg. split; [intros _; left; reflexivity|done]. }
  destruct (PipelineFacts.process_hotel_some w url mb mw mh ms mp c Hg)
    as (name & Hne & Hn & Hs & Hph).
  rewrite Hph, Hs.
  destruct (w_write_ok w ("MCP/data/scraped/" ++ name)) eqn:W1;
    destruct (w_api_ready w) eqn:Ha;
    destruct (w_write_ok w ("MCP/data/structured/" ++ name)) eqn:W2;
    cbn [andb]; split; intros H;
    solve [ discriminate | reflexivity | now left | now (right; left)
          | now (right; right; left)
          | (right; right; right; eexists; split; [reflexivity|];
             rewrite PipelineFacts.structured_path by exact Hn; assumption)
          | (destruct H as [H|[H|[H|(path & Hp & Hw)]]]; try discriminate; try congruence;
             injection Hp as <-; rewrite PipelineFacts.structured_path in Hw by exact Hn;
             congruence) ].
Qed.

Module ListFacts.






End ListFacts.





(* ================================================================== *)
(** * Properties of the image downloader *)
(* ================================================================== *)

Module ImgFiles.

Lemma rfind_none_has c s : Str.rfind c s = None → Str.has_char c s = false.
Proof.
  induction s as [|x s IH]; intros H; [reflexivity|].
  cbn [Str.rfind] in H. destruct (Str.rfind c s); [discriminate|].
  rewrite NameFacts.has_char_cons, IH by reflexivity.
  destruct (Ascii.eqb_spec x c) as [->|Hx]; [discriminate|].
  destruct (Ascii.eqb_spec c x); [congruence|reflexivity].
Qed.

Lemma rfind_drop c s i : Str.rfind c s = Some i → Str.has_char c (Str.drop (S i) s) = false.
Proof.
  revert i. induction s as [|x s IH]; intros i H; [discriminate|].
  cbn [Str.rfind] in H. destruct (Str.rfind c s) as [j|] eqn:Ej.
  - injection H as <-. change (Str.drop (S (S j)) (String x s)) with (Str.drop (S j) s).
    apply IH. reflexivity.
  - destruct (Ascii.eqb x c); [|discriminate]. injection H as <-.
    change (Str.drop 1 (String x s)) with (String.substring 0 (String.length s - 0) s).
    rewrite Nat.sub_0_r, NameFacts.substring_all. apply rfind_none_has, Ej.
Qed.

(** [os.path.basename] never returns a string with a '/'. *)
Lemma basename_no_slash p : Str.has_char "/" (basename p) = false.
Proof.
  unfold basename. destruct (Str.rfind "/" p) eqn:E; [apply rfind_drop|apply rfind_none_has];
    exact E.
Qed.

(** The file-name fallback of [_download_image]. *)
Lemma fallback_name fn alt :
  Str.has_char "/" fn = false → Str.has_char "/" alt = false → Str.has_char "." alt = true →
  let name := if String.eqb fn "" || negb (Str.has_char "." fn) then alt else fn in
  Str.has_char "/" name = false ∧ Str.has_char "." name = true.
Proof.
  intros Hf Ha Hd. cbv zeta.
  destruct (String.eqb fn "" || negb (Str.has_char "." fn)) eqn:E; [auto|].
  apply orb_false_iff in E as [_ E]. apply negb_false_iff in E. auto.
Qed.

Lemma image_name_ok n :
  Str.has_char "/" ("image_" ++ str_of_Z n ++ ".jpg") = false ∧
  Str.has_char "." ("image_" ++ str_of_Z n ++ ".jpg") = true.
Proof.
  rewrite !NameFacts.has_char_app.
  rewrite (NameFacts.safe_no_slash _ (NameFacts.str_of_Z_safe n)).
  split; [reflexivity|]. destruct (Str.has_char "." (str_of_Z n)); reflexivity.
Qed.

End ImgFiles.

Module ImgCrawlFacts.
Section Crawl.
Variable cfg : ImgConfig.
Variable net : string -> list Outcome.
Variable py_hash : string -> Z.
Variable web : string -> option Img.ImgPage.
Variable bg_match : string -> option string.

(** A file the crawl may write: at least [min_size_kb] KB, and a name
    with a '.' and no '/'. *)
Definition good_file (f : string * list Byte.byte) : Prop :=
  let '(name, data) := f in
  (min_size_kb cfg * 1024 ≤ Z.of_nat (length data))%Z ∧
  Str.has_char "/" name = false ∧ Str.has_char "." name = true.

(** From [st] to [st']: the files [new] were written, newest first, and
    [downloaded_count] went up by their number. *)
Definition wrote (st st' : DlState) : Prop :=
  ∃ new, dl_files st' = (new ++ dl_files st)%list ∧
    dl_count st' = (length new + dl_count st)%nat ∧ Forall good_file new.

Lemma wrote_same st st' :
  dl_files st' = dl_files st → dl_count st' = dl_count st → wrote st st'.
Proof. intros Hf Hc. exists []. rewrite Hf, Hc. auto. Qed.

Lemma wrote_trans s1 s2 s3 : wrote s1 s2 → wrote s2 s3 → wrote s1 s3.
Proof.
  intros (n1 & F1 & C1 & G1) (n2 & F2 & C2 & G2). exists (n2 ++ n1)%list.
  rewrite F2, F1, app_assoc, C2, C1, length_app. split; [reflexivity|]. split; [lia|].
  apply Forall_app. auto.
Qed.

Lemma download_image_wrote st u : wrote st (Img._download_image cfg net py_hash st u).
Proof.
  unfold Img._download_image.
  destruct (Img.request net st u) as [o st1] eqn:Er.
  assert (Hf : dl_files st1 = dl_files st ∧ dl_count st1 = dl_count st).
  { unfold Img.request in Er. injection Er as _ <-. split; reflexivity. }
  destruct Hf as [Hf Hc].
  destruct o as [| |r]; try (apply wrote_same; assumption).
  destruct (negb (status_ok r)); [apply wrote_same; assumption|].
  destruct (negb (Str.startswith "image/" (content_type r))); [apply wrote_same; assumption|].
  destruct (below_min_kb (length (content r)) (min_size_kb cfg)) eqn:Eb;
    [apply wrote_same; assumption|].
  destruct (image_size r) as [[wd ht]|]; [|apply wrote_same; assumption].
  destruct ((wd <? min_width cfg)%Z || (ht <? min_height cfg)%Z);
    [apply wrote_same; assumption|].
  destruct (urlparse u) as [p|]; [|apply wrote_same; assumption].
  destruct (ImgFiles.image_name_ok (py_hash u mod 10000)) as [Hs Hd].
  pose proof (ImgFiles.fallback_name (basename (path p)) _
                (ImgFiles.basename_no_slash (path p)) Hs Hd) as Hn.
  cbv zeta in Hn |- *.
  eexists [(_, content r)]. unfold Img.write_file. cbn [dl_files dl_count].
  rewrite Hf, Hc. split; [reflexivity|]. split; [reflexivity|].
  constructor; [|constructor]. split; [|exact Hn].
  rewrite ImgFacts.below_min_kb_spec in Eb. apply Z.ltb_ge in Eb. lia.
Qed.

Lemma download_images_wrote st : wrote st (Img._download_images cfg net py_hash st).
Proof.
  unfold Img._download_images.
  assert (H : ∀ l s, wrote s (fold_left (Img._download_image cfg net py_hash) l s)).
  { induction l as [|u l IH]; intros s; cbn [fold_left]; [apply wrote_same; reflexivity|].
    eapply wrote_trans; [apply download_image_wrote|apply IH]. }
  destruct (H (elements (dl_image_urls st)) st) as (n & F & C & G).
  exists n. cbn [dl_files dl_count]. auto.
Qed.

Lemma img_step_same u st img :
  dl_files (ImgCap.exc_st (Img.img_step u st img)) = dl_files st ∧
  dl_count (ImgCap.exc_st (Img.img_step u st img)) = dl_count st.
Proof. unfold Img.img_step. repeat (case_match; simpl; try (split; reflexivity)). Qed.

Lemma style_step_same u st sty :
  dl_files (ImgCap.exc_st (Img.style_step bg_match u st sty)) = dl_files st ∧
  dl_count (ImgCap.exc_st (Img.style_step bg_match u st sty)) = dl_count st.
Proof. unfold Img.style_step. repeat (case_match; simpl; try (split; reflexivity)). Qed.

Lemma process_url_wrote fuel st u b :
  wrote st (Img._process_url cfg net py_hash web bg_match fuel st u b).
Proof.
  revert st u b. induction fuel as [|fuel IH]; intros st u b;
    cbn -[Img.is_keyword_link Img.for_each Img.mark_visited Img._download_images
          Img.img_step Img.style_step Img.domain]; [apply wrote_same; reflexivity|].
  destruct (Nat.leb_spec (max_pages cfg) (size (dl_visited st))); [apply wrote_same; reflexivity|].
  case_bool_decide as Hv; [apply wrote_same; reflexivity|].
  set (m := Img.mark_visited st u).
  assert (Hm : wrote st m) by (apply wrote_same; reflexivity).
  match goal with |- wrote st (Img._download_images _ _ _ ?x) =>
    enough (Hx : wrote st x) by (eapply wrote_trans; [exact Hx|apply download_images_wrote]) end.
  destruct (web u) as [page|]; [|exact Hm].
  assert (Hs1 : wrote st (ImgCap.exc_st (Img.for_each (Img.img_step u) (Img.pg_imgs page) m))).
  { apply ImgCap.for_each_pres; [|exact Hm]. intros s x Hs. eapply wrote_trans; [exact Hs|].
    destruct (img_step_same u s x). apply wrote_same; assumption. }
  destruct (Img.for_each (Img.img_step u) _ _) as [s1|s1]; [exact Hs1|].
  cbn [ImgCap.exc_st] in Hs1.
  assert (Hs2 : wrote st (ImgCap.exc_st
                  (Img.for_each (Img.style_step bg_match u) (Img.pg_styles page) s1))).
  { apply ImgCap.for_each_pres; [|exact Hs1]. intros s x Hs. eapply wrote_trans; [exact Hs|].
    destruct (style_step_same u s x). apply wrote_same; assumption. }
  destruct (Img.for_each (Img.style_step bg_match u) _ _) as [s2|s2]; [exact Hs2|].
  cbn [ImgCap.exc_st] in Hs2.
  destruct b; [|exact Hs2].
  match goal with
  | |- wrote st (match Img.for_each ?f ?l s2 with _ => _ end) =>
      pose proof (ImgCap.for_each_pres (wrote st) f l s2) as H3
  end.
  destruct (Img.for_each _ _ s2); apply H3; try exact Hs2;
    intros s' [href text] Hs'; repeat case_match; cbn [ImgCap.exc_st];
    solve [exact Hs' | eapply wrote_trans; [exact Hs'|apply IH]].
Qed.

Lemma identify_same st u :
  dl_files (Img._identify_priority_pages cfg web st u) = dl_files st ∧
  dl_count (Img._identify_priority_pages cfg web st u) = dl_count st.
Proof.
  unfold Img._identify_priority_pages. destruct (web u) as [page|]; [|auto].
  match goal with
  | |- context [Img.for_each ?f ?l st] =>
      pose proof (ImgCap.for_each_pres
                    (λ st', dl_files st' = dl_files st ∧ dl_count st' = dl_count st) f l st) as H
  end.
  destruct (Img.for_each _ _ _); apply H; auto;
    intros st' [href text] Hst'; repeat (case_match; simpl; auto).
Qed.

Lemma crawl_wrote st0 :
  let '(n, st) := Img.crawl cfg net py_hash web bg_match st0 in
  ∃ new, dl_files st = (new ++ dl_files st0)%list ∧ n = length new ∧ Forall good_file new.
Proof.
  unfold Img.crawl. cbv zeta.
  set (s1 := mkDl ∅ ∅ 0 (dl_files st0) (dl_reqs st0) (dl_sleeps st0) (dl_priority_pages st0)).
  set (s2 := Img._identify_priority_pages cfg web s1 (img_base_url cfg)).
  assert (H2 : wrote s1 s2) by (destruct (identify_same s1 (img_base_url cfg)); apply wrote_same; assumption).
  set (s3 := Img._process_url cfg net py_hash web bg_match (S (max_pages cfg)) s2 (img_base_url cfg) true).
  assert (H3 : wrote s1 s3) by (eapply wrote_trans; [exact H2|apply process_url_wrote]).
  match goal with
  | |- context [fold_left ?f (dl_priority_pages s3) s3] =>
      assert (Hf : ∀ l s, wrote s1 s → wrote s1 (fold_left f l s))
  end.
  { induction l as [|u l IH]; intros s Hs; cbn [fold_left]; [exact Hs|].
    apply IH. case_match; [|exact Hs]. eapply wrote_trans; [exact Hs|apply process_url_wrote]. }
  destruct (Hf (dl_priority_pages s3) s3 H3) as (n & F & C & G).
  exists n. split; [exact F|]. split; [|exact G]. rewrite C. cbn. lia.
Qed.

End Crawl.
End ImgCrawlFacts.

(** X9: [ImageDownloader.crawl] returns the number of files it wrote,
    and every file it writes holds at least [min_size_kb] KB of data under
    a name (the last segment of the URL path, or image_<n>.jpg) that
    contains a '.' and no '/'. *)
Theorem image_crawl_files (cfg : ImgConfig) (net : string -> list Outcome)
    (py_hash : string -> Z) (web : string -> option Img.ImgPage)
    (bg_match : string -> option string) (st0 : DlState) :
  let '(n, st) := Img.crawl cfg net py_hash web bg_match st0 in
  ∃ new, dl_files st = (new ++ dl_files st0)%list ∧ n = length new ∧
    Forall (λ '(name, data), (min_size_kb cfg * 1024 ≤ Z.of_nat (length data))%Z ∧
                              Str.has_char "/" name = false ∧ Str.has_char "." name = true) new.
Proof. apply ImgCrawlFacts.crawl_wrote. Qed.

Module ImgHost.
Section Host.
Variable cfg : ImgConfig.
Variable net : string -> list Outcome.
Variable py_hash : string -> Z.
Variable web : string -> option Img.ImgPage.
Variable bg_match : string -> option string.

(** [urlparse(a).netloc == self.domain] *)
Definition on_domain (a : string) : Prop :=
  ∃ pa, urlparse a = Some pa ∧ netloc pa = Img.domain cfg.

(** Every visited URL is the base URL or on the base URL's host. *)
Definition host_ok (st : DlState) : Prop :=
  ∀ x, x ∈ dl_visited st → x = img_base_url cfg ∨ on_domain x.

Lemma download_image_pages st u :
  dl_priority_pages (Img._download_image cfg net py_hash st u) = dl_priority_pages st.
Proof. unfold Img._download_image, Img.request. simpl. repeat (case_match; simpl; try reflexivity). Qed.

Lemma download_images_pages st :
  dl_priority_pages (Img._download_images cfg net py_hash st) = dl_priority_pages st.
Proof.
  unfold Img._download_images. simpl.
  generalize (elements (dl_image_urls st)). intros l. revert st.
  induction l as [|u l IH]; intros st; simpl; [done|].
  rewrite IH. apply download_image_pages.
Qed.

Lemma img_step_pages u st img :
  dl_priority_pages (ImgCap.exc_st (Img.img_step u st img)) = dl_priority_pages st.
Proof. unfold Img.img_step. repeat (case_match; simpl; try reflexivity). Qed.

Lemma style_step_pages u st sty :
  dl_priority_pages (ImgCap.exc_st (Img.style_step bg_match u st sty)) = dl_priority_pages st.
Proof. unfold Img.style_step. repeat (case_match; simpl; try reflexivity). Qed.

(** [_process_url] never changes [priority_pages]. *)
Lemma process_url_pages fuel st u b :
  dl_priority_pages (Img._process_url cfg net py_hash web bg_match fuel st u b) =
  dl_priority_pages st.
Proof.
  revert st u b. induction fuel as [|fuel IH]; intros st u b;
    cbn -[Img.is_keyword_link Img.for_each Img.mark_visited Img._download_images
          Img.img_step Img.style_step Img.domain]; [done|].
  destruct (Nat.leb_spec (max_pages cfg) (size (dl_visited st))); [done|].
  case_bool_decide as Hv; [done|].
  rewrite download_images_pages.
  set (P := λ s, dl_priority_pages s = dl_priority_pages st).
  assert (Hm : P (Img.mark_visited st u)) by reflexivity.
  match goal with |- dl_priority_pages ?x = _ => change (P x) end.
  destruct (web u) as [page|]; [|exact Hm].
  assert (H1 : P (ImgCap.exc_st (Img.for_each (Img.img_step u) (Img.pg_imgs page)
                                  (Img.mark_visited st u)))).
  { apply ImgCap.for_each_pres; [|exact Hm]. intros s x Hs. unfold P.
    rewrite img_step_pages. exact Hs. }
  destruct (Img.for_each (Img.img_step u) _ _) as [s1|s1]; [exact H1|].
  cbn [ImgCap.exc_st] in H1.
  assert (H2 : P (ImgCap.exc_st (Img.for_each (Img.style_step bg_match u) (Img.pg_styles page) s1))).
  { apply ImgCap.for_each_pres; [|exact H1]. intros s x Hs. unfold P.
    rewrite style_step_pages. exact Hs. }
  destruct (Img.for_each (Img.style_step bg_match u) _ _) as [s2|s2]; [exact H2|].
  cbn [ImgCap.exc_st] in H2.
  destruct b; [|exact H2].
  match goal with
  | |- P (match Img.for_each ?f ?l s2 with _ => _ end) =>
      pose proof (ImgCap.for_each_pres P f l s2) as H3
  end.
  destruct (Img.for_each _ _ s2); apply H3; try exact H2;
    intros s' [href text] Hs'; repeat case_match; cbn [ImgCap.exc_st];
    solve [exact Hs' | unfold P; rewrite IH; exact Hs'].
Qed.

Lemma process_url_host fuel st u b :
  u = img_base_url cfg ∨ on_domain u → host_ok st →
  host_ok (Img._process_url cfg net py_hash web bg_match fuel st u b).
Proof.
  revert st u b. induction fuel as [|fuel IH]; intros st u b Hu Hst;
    cbn -[Img.is_keyword_link Img.for_each Img.mark_visited Img._download_images
          Img.img_step Img.style_step Img.domain]; [done|].
  destruct (Nat.leb_spec (max_pages cfg) (size (dl_visited st))); [done|].
  case_bool_decide as Hv; [done|].
  match goal with |- host_ok (Img._download_images _ _ _ ?x) =>
    enough (Hx : host_ok x) by (intros y Hy; rewrite ImgCap.download_images_visited in Hy;
                                apply Hx, Hy) end.
  assert (Hm : host_ok (Img.mark_visited st u)).
  { intros x Hx. cbn [Img.mark_visited dl_visited] in Hx.
    apply elem_of_union in Hx as [Hx|Hx]; [apply elem_of_singleton in Hx as ->; exact Hu|].
    apply Hst, Hx. }
  destruct (web u) as [page|]; [|exact Hm].
  assert (H1 : host_ok (ImgCap.exc_st (Img.for_each (Img.img_step u) (Img.pg_imgs page)
                                        (Img.mark_visited st u)))).
  { apply ImgCap.for_each_pres; [|exact Hm]. intros s x Hs y Hy.
    rewrite ImgCap.img_step_visited in Hy. apply Hs, Hy. }
  destruct (Img.for_each (Img.img_step u) _ _) as [s1|s1]; [exact H1|].
  cbn [ImgCap.exc_st] in H1.
  assert (H2 : host_ok (ImgCap.exc_st
                          (Img.for_each (Img.style_step bg_match u) (Img.pg_styles page) s1))).
  { apply ImgCap.for_each_pres; [|exact H1]. intros s x Hs y Hy.
    rewrite ImgCap.style_step_visited in Hy. apply Hs, Hy. }
  destruct (Img.for_each (Img.style_step bg_match u) _ _) as [s2|s2]; [exact H2|].
  cbn [ImgCap.exc_st] in H2.
  destruct b; [|exact H2].
  match goal with
  | |- host_ok (match Img.for_each ?f ?l s2 with _ => _ end) =>
      pose proof (ImgCap.for_each_pres host_ok f l s2) as H3
  end.
  destruct (Img.for_each _ _ s2); apply H3; try exact H2;
    intros s' [href text] Hs'; repeat case_match; cbn [ImgCap.exc_st]; try exact Hs';
    (apply IH; [|exact Hs']); right;
    match goal with
    | Hp : urlparse ?a = Some ?pa, He : (String.eqb _ _ && _)%bool = true |- on_domain ?a =>
        apply andb_prop in He as [He _]; apply String.eqb_eq in He; exists pa; auto
    end.
Qed.

Lemma identify_pages st u :
  ∃ added, dl_priority_pages (Img._identify_priority_pages cfg web st u) =
             (dl_priority_pages st ++ added)%list ∧ Forall on_domain added.
Proof.
  unfold Img._identify_priority_pages. destruct (web u) as [page|].
  2: { exists []. rewrite app_nil_r. auto. }
  set (P := λ s, ∃ added, dl_priority_pages s = (dl_priority_pages st ++ added)%list ∧
                           Forall on_domain added).
  match goal with |- ∃ added, dl_priority_pages ?x = _ ∧ _ => change (P x) end.
  match goal with
  | |- P (match Img.for_each ?f ?l st with _ => _ end) =>
      pose proof (ImgCap.for_each_pres P f l st) as H
  end.
  assert (H0 : P st) by (exists []; rewrite app_nil_r; auto).
  destruct (Img.for_each _ _ _); apply H; try exact H0;
    intros s' [href text] Hs'; repeat case_match; cbn [ImgCap.exc_st]; try exact Hs'.
  all: destruct Hs' as (added & Ha & Hf).
  all: match goal with
       | Hp : urlparse ?a = Some ?pa, He : String.eqb _ _ = true |- _ =>
           apply String.eqb_eq in He; exists (added ++ [a])%list;
           cbn [Img.add_priority_page dl_priority_pages]; rewrite Ha, app_assoc;
           split; [reflexivity|]; apply Forall_app; split; [exact Hf|];
           constructor; [exists pa; auto|constructor]
       end.
Qed.

Lemma crawl_host st0 :
  Forall on_domain (dl_priority_pages st0) →
  host_ok (snd (Img.crawl cfg net py_hash web bg_match st0)).
Proof.
  intros H0. unfold Img.crawl. cbv zeta. cbn [snd].
  set (s1 := mkDl ∅ ∅ 0 (dl_files st0) (dl_reqs st0) (dl_sleeps st0) (dl_priority_pages st0)).
  set (s2 := Img._identify_priority_pages cfg web s1 (img_base_url cfg)).
  assert (Hs2 : host_ok s2).
  { intros x Hx. unfold s2 in Hx. rewrite ImgCap.identify_visited in Hx. set_solver. }
  assert (Hp2 : Forall on_domain (dl_priority_pages s2)).
  { destruct (identify_pages s1 (img_base_url cfg)) as (added & Ha & Hf).
    unfold s2. rewrite Ha. apply Forall_app. auto. }
  set (s3 := Img._process_url cfg net py_hash web bg_match (S (max_pages cfg)) s2
               (img_base_url cfg) true).
  assert (Hs3 : host_ok s3) by (apply process_url_host; auto).
  assert (Hp3 : Forall on_domain (dl_priority_pages s3)) by (unfold s3; rewrite process_url_pages; exact Hp2).
  match goal with
  | |- host_ok (fold_left ?f (dl_priority_pages s3) s3) =>
      assert (Hf : ∀ l s, Forall on_domain l → host_ok s → host_ok (fold_left f l s))
  end.
  { induction l as [|u l IH]; intros s Hl Hs; cbn [fold_left]; [exact Hs|].
    apply Forall_cons in Hl as [Hu Hl]. apply IH; [exact Hl|].
    case_match; [|exact Hs]. apply process_url_host; auto. }
  apply Hf; assumption.
Qed.

End Host.
End ImgHost.

(** X10: when [priority_pages] holds only URLs on the base URL's host
    (as it does for a new [ImageDownloader]), every URL the image crawl
    visits is the base URL itself or a URL whose netloc is the base URL's:
    neither the priority scan nor the link following leaves the site. *)
Theorem image_crawl_stays_on_site (cfg : ImgConfig) (net : string -> list Outcome)
    (py_hash : string -> Z) (web : string -> option Img.ImgPage)
    (bg_match : string -> option string) (st0 : DlState) :
  Forall (λ a, ∃ pa, urlparse a = Some pa ∧ netloc pa = Img.domain cfg) (dl_priority_pages st0) →
  ∀ u, u ∈ dl_visited (snd (Img.crawl cfg net py_hash web bg_match st0)) →
    u = img_base_url cfg ∨ ∃ pa, urlparse u = Some pa ∧ netloc pa = Img.domain cfg.
Proof. intros H0. apply ImgHost.crawl_host, H0. Qed.

Lemma image_crawl_stays_on_site_witness :
  "https://www.hotel.com" = img_base_url shop_cfg ∨
  ∃ pa, urlparse "https://www.hotel.com" = Some pa ∧ netloc pa = Img.domain shop_cfg.
Proof.
  apply (image_crawl_stays_on_site shop_cfg shop_net (fun _ => 0%Z) shop_web (fun _ => None)
           dl_init).
  - constructor.
  - match goal with |- ?P => apply (bool_decide_eq_true_1 P) end. vm_compute. reflexivity.
Defined.

Module ImgRetry.
Section Retry.
Variable cfg : ImgConfig.
Variable net : string -> list Outcome.
Variable md5_hex : list Byte.byte -> string.

(** [get_image_info] only makes requests. *)
Lemma get_image_info_frame st u :
  let st' := snd (Img.get_image_info cfg net st u) in
  dl_files st' = dl_files st ∧ dl_image_urls st' = dl_image_urls st ∧
  dl_sleeps st' = dl_sleeps st.
Proof.
  unfold Img.get_image_info, Img.request. cbv zeta.
  repeat (case_match; cbn [snd fst dl_files dl_image_urls dl_sleeps] in *; simplify_eq;
          try (split; [reflexivity|split; reflexivity])).
Qed.

Lemma download_attempt_sleeps st u :
  dl_sleeps (snd (Img.download_attempt cfg net md5_hex st u)) = dl_sleeps st.
Proof.
  unfold Img.download_attempt.
  destruct (urljoin (img_base_url cfg) u) as [u'|]; [|reflexivity].
  pose proof (get_image_info_frame st u') as (_ & _ & Hs). cbv zeta in Hs.
  destruct (Img.get_image_info cfg net st u') as [[[[[v ct] wd] ht] sz] st1].
  cbn [snd] in Hs. destruct v; cbn [negb]; [|exact Hs].
  unfold Img.request. cbv zeta.
  repeat (case_match; cbn [snd dl_sleeps Img.add_image_url Img.write_file]; try exact Hs).
Qed.

(** [retry_loop] from attempt [a] with [left] passes left
    ([a + left = max_retries]): the passes it makes, as the states and
    URLs each one starts from. *)
Lemma retry_loop_trace m left : ∀ a st u, (a + left = m)%nat →
  let '(res, st') := Img.retry_loop cfg net md5_hex m a left st u in
  ∃ tr : list (DlState * string),
    tr !! 0%nat = Some (st, u) ∧
    (∀ i s u1, tr !! S i = Some (s, u1) → ∃ s0 u0 s1, tr !! i = Some (s0, u0) ∧
        Img.download_attempt cfg net md5_hex s0 u0 = (Img.Retryable, u1, s1) ∧
        s = Img.add_sleep s1 (2 ^ Z.of_nat (a + i))%Z) ∧
    dl_sleeps st' = (rev (map (λ i, (2 ^ Z.of_nat i)%Z) (seq a (length tr - 1))) ++ dl_sleeps st)%list ∧
    (left = 0%nat → res = None ∧ st' = st ∧ tr = [(st, u)]) ∧
    (0 < left → length tr ≤ left ∧ ∃ s u1, tr !! (length tr - 1) = Some (s, u1) ∧
       ((∃ b u2, Img.download_attempt cfg net md5_hex s u1 = (Img.Returned b, u2, st') ∧ res = Some b) ∨
        (length tr = left ∧ ∃ u2,
           Img.download_attempt cfg net md5_hex s u1 = (Img.Retryable, u2, st') ∧ res = Some false)))%nat.
Proof.
  induction left as [|l IH]; intros a st u Hm.
  - cbn [Img.retry_loop]. exists [(st, u)].
    split; [reflexivity|]. split; [intros i s u1 Hi; discriminate Hi|].
    split; [reflexivity|]. split; [auto|]. intros H; lia.
  - cbn [Img.retry_loop].
    pose proof (download_attempt_sleeps st u) as Hs.
    destruct (Img.download_attempt cfg net md5_hex st u) as [[e u'] st1] eqn:Ha.
    cbn [snd] in Hs. destruct e as [b|].
    + exists [(st, u)].
      split; [reflexivity|]. split; [intros i s u1 Hi; discriminate Hi|].
      split; [cbn; rewrite Hs; reflexivity|]. split; [discriminate|].
      intros _. split; [cbn; lia|]. exists st, u. split; [reflexivity|].
      left. exists b, u'. auto.
    + destruct (Nat.ltb_spec a (m - 1)) as [Hlt|Hge].
      * specialize (IH (S a) (Img.add_sleep st1 (2 ^ Z.of_nat a)%Z) u' ltac:(lia)).
        destruct (Img.retry_loop cfg net md5_hex m (S a) l _ u') as [res st''].
        destruct IH as (tr & H0 & Hstep & Hsl & _ & Hpos).
        destruct tr as [|x tr]; [discriminate H0|].
        cbn in H0. injection H0 as ->.
        exists ((st, u) :: (Img.add_sleep st1 (2 ^ Z.of_nat a)%Z, u') :: tr).
        split; [reflexivity|]. split.
        -- intros [|i] s u1 Hi.
           ++ cbn in Hi. injection Hi as <- <-. exists st, u, st1.
              rewrite Nat.add_0_r. auto.
           ++ cbn in Hi. change (((Img.add_sleep st1 (2 ^ Z.of_nat a)%Z, u') :: tr) !! S i = Some (s, u1)) in Hi.
              apply Hstep in Hi as (s0 & u0 & s1 & Hi0 & Hat & ->).
              exists s0, u0, s1. split; [exact Hi0|]. split; [exact Hat|].
              replace (a + S i)%nat with (S a + i)%nat by lia. reflexivity.
        -- split.
           ++ rewrite Hsl. cbn [length Img.add_sleep dl_sleeps].
              replace (S (S (length tr)) - 1)%nat with (S (length tr)) by lia.
              replace (S (length tr) - 1)%nat with (length tr) by lia.
              cbn [seq map rev]. rewrite Hs, <- app_assoc. reflexivity.
           ++ split; [discriminate|]. intros _.
              destruct (Hpos ltac:(lia)) as (Hlen & s & u1 & Hlast & Hend).
              cbn [length] in Hlen, Hlast |- *.
              replace (S (length tr) - 1)%nat with (length tr) in Hlast by lia.
              split; [lia|]. exists s, u1.
              replace (S (S (length tr)) - 1)%nat with (S (length tr)) by lia.
              split; [exact Hlast|].
              destruct Hend as [Hb|(Hl & Hr)]; [left; exact Hb|right; cbn [length] in Hl; split; [lia|exact Hr]].
      * exists [(st, u)].
        split; [reflexivity|]. split; [intros i s u1 Hi; discriminate Hi|].
        split; [cbn; rewrite Hs; reflexivity|]. split; [discriminate|].
        intros _. split; [cbn; lia|]. exists st, u. split; [reflexivity|].
        right. split; [cbn; lia|]. exists u'. auto.
Qed.

(** The stored files have pairwise distinct MD5 digests, each of them
    recorded in [image_urls]. *)
Definition dedup_ok (st : DlState) : Prop :=
  NoDup (map (λ f, md5_hex (snd f)) (dl_files st)) ∧
  ∀ f, f ∈ dl_files st → md5_hex (snd f) ∈ dl_image_urls st.

Lemma dedup_ok_mono st st' :
  dl_files st' = dl_files st → dl_image_urls st ⊆ dl_image_urls st' →
  dedup_ok st → dedup_ok st'.
Proof.
  intros Hf Hu [Hn Hin]. unfold dedup_ok. rewrite Hf. split; [exact Hn|].
  intros f Hx. apply Hu, Hin, Hx.
Qed.

Lemma download_attempt_dedup st u :
  dedup_ok st → dedup_ok (snd (Img.download_attempt cfg net md5_hex st u)).
Proof.
  intros Hd. unfold Img.download_attempt.
  destruct (urljoin (img_base_url cfg) u) as [u'|]; [|exact Hd].
  pose proof (get_image_info_frame st u') as (Hf & Hu & _). cbv zeta in Hf, Hu.
  destruct (Img.get_image_info cfg net st u') as [[[[[v ct] wd] ht] sz] st1].
  cbn [snd] in Hf, Hu.
  assert (Hd1 : dedup_ok st1) by (apply (dedup_ok_mono st); [exact Hf|rewrite Hu; done|exact Hd]).
  destruct v; cbn [negb]; [|exact Hd1].
  unfold Img.request. cbv zeta.
  set (st2 := mkDl (dl_visited st1) (dl_image_urls st1) (dl_count st1) (dl_files st1)
                   (<[u':=S (default 0%nat (dl_reqs st1 !! u'))]> (dl_reqs st1))
                   (dl_sleeps st1) (dl_priority_pages st1)).
  assert (Hd2 : dedup_ok st2) by (apply (dedup_ok_mono st1); [reflexivity|done|exact Hd1]).
  destruct (match net u' with [] => Timeout | _ => _ end) as [| |r]; cbn [snd]; try exact Hd2.
  case_bool_decide as Hin; cbn [snd]; [exact Hd2|].
  set (st3 := Img.add_image_url st2 (md5_hex (content r))).
  assert (Hd3 : dedup_ok st3) by (apply (dedup_ok_mono st2); [reflexivity|cbn; set_solver|exact Hd2]).
  destruct (urlparse u') as [p|]; cbn [snd]; [|exact Hd3].
  destruct Hd2 as [Hn Hall]. unfold Img.write_file. split.
  - cbn [dl_files map snd]. constructor; [|exact Hn].
    intros Hx. apply list_elem_of_In, in_map_iff in Hx as (f & Heq & Hf').
    apply Hin. rewrite <- Heq. apply Hall, list_elem_of_In, Hf'.
  - cbn [dl_files dl_image_urls Img.add_image_url st3]. intros f Hx.
    apply elem_of_cons in Hx as [->|Hx]; [set_solver|].
    apply elem_of_union_r, (Hall f Hx).
Qed.

Lemma retry_loop_dedup m left : ∀ a st u,
  dedup_ok st → dedup_ok (snd (Img.retry_loop cfg net md5_hex m a left st u)).
Proof.
  induction left as [|left IH]; intros a st u Hd; [exact Hd|]. cbn [Img.retry_loop].
  pose proof (download_attempt_dedup st u Hd) as Hd'.
  destruct (Img.download_attempt cfg net md5_hex st u) as [[e u'] st'].
  cbn [snd] in Hd'. destruct e; [exact Hd'|].
  destruct (a <? m - 1)%nat; [|exact Hd'].
  apply IH. destruct Hd' as [Hn Hall]. split; [exact Hn|exact Hall].
Qed.

End Retry.
End ImgRetry.

(** X11: the passes of the loop in [download_image(img_url, max_retries)]
    start from [img_url] and the downloader as it is; a pass is followed
    by another only if it ended in a [RequestException] of the image GET,
    with [time.sleep(2 ** attempt)] in between, so the sleeps are 1, 2,
    4, ... seconds, one per such pass but the last. The last pass either
    returns its value, or is the [max_retries]-th, ends in a
    [RequestException] and returns [False]; for [max_retries = 0] nothing
    happens and the call returns [None]. *)
Theorem download_image_backoff (cfg : ImgConfig) (net : string -> list Outcome)
    (md5_hex : list Byte.byte -> string) (st : DlState) (url : string) (m : nat) :
  let '(res, st') := Img.download_image cfg net md5_hex st url m in
  ∃ tr : list (DlState * string),
    tr !! 0%nat = Some (st, url) ∧
    (∀ i s u1, tr !! S i = Some (s, u1) → ∃ s0 u0 s1, tr !! i = Some (s0, u0) ∧
        Img.download_attempt cfg net md5_hex s0 u0 = (Img.Retryable, u1, s1) ∧
        s = Img.add_sleep s1 (2 ^ Z.of_nat i)%Z) ∧
    dl_sleeps st' = (rev (map (λ i, (2 ^ Z.of_nat i)%Z) (seq 0 (length tr - 1))) ++ dl_sleeps st)%list ∧
    (m = 0%nat → res = None ∧ st' = st ∧ tr = [(st, url)]) ∧
    (0 < m → length tr ≤ m ∧ ∃ s u1, tr !! (length tr - 1) = Some (s, u1) ∧
       ((∃ b u2, Img.download_attempt cfg net md5_hex s u1 = (Img.Returned b, u2, st') ∧ res = Some b) ∨
        (length tr = m ∧ ∃ u2,
           Img.download_attempt cfg net md5_hex s u1 = (Img.Retryable, u2, st') ∧ res = Some false)))%nat.
Proof.
  unfold Img.download_image.
  exact (ImgRetry.retry_loop_trace cfg net md5_hex m m 0 st url eq_refl).
Qed.

(** X12: as long as the files stored so far have distinct MD5 digests
    that are all in [image_urls] (as for a new [ImageDownloader]),
    [download_image] keeps it so: it never stores a second image whose
    content has the digest of one it stored. *)
Theorem download_image_no_duplicate_content (cfg : ImgConfig) (net : string -> list Outcome)
    (md5_hex : list Byte.byte -> string) (st : DlState) (url : string) (m : nat) :
  NoDup (map (λ f, md5_hex (snd f)) (dl_files st)) →
  (∀ f, f ∈ dl_files st → md5_hex (snd f) ∈ dl_image_urls st) →
  let st' := snd (Img.download_image cfg net md5_hex st url m) in
  NoDup (map (λ f, md5_hex (snd f)) (dl_files st')) ∧
  (∀ f, f ∈ dl_files st' → md5_hex (snd f) ∈ dl_image_urls st').
Proof.
  intros Hn Hall. apply ImgRetry.retry_loop_dedup. split; assumption.
Qed.

Lemma download_image_no_duplicate_content_witness :
  let st' := snd (Img.download_image shop_cfg shop_net len_digest dl_init
                    "https://www.hotel.com/img/a.jpg" 3) in
  NoDup (map (λ f, len_digest (snd f)) (dl_files st')) ∧
  (∀ f, f ∈ dl_files st' → len_digest (snd f) ∈ dl_image_urls st').
Proof.
  apply (download_image_no_duplicate_content shop_cfg shop_net len_digest dl_init
           "https://www.hotel.com/img/a.jpg" 3).
  - constructor.
  - intros f Hf. apply not_elem_of_nil in Hf. contradiction.
Defined.

Module ImgAbort.



End ImgAbort.



Module MarkdownFacts.
Import CrawlFacts.

(** A step that changes neither [markdown_content] nor the GETs of
    [_process_url]. *)
Definition calm (s s' : CrawlState) : Prop :=
  cs_markdown s' = cs_markdown s ∧ process_fetches s' = process_fetches s.

#[export] Instance calm_preorder : PreOrder calm.
Proof.
  split.
  - intros s. split; reflexivity.
  - intros s1 s2 s3 [? ?] [? ?]. split; congruence.
Qed.

Lemma calm_modify f :
  (∀ s, cs_markdown (f s) = cs_markdown s ∧ cs_fetches (f s) = cs_fetches s) →
  stable calm (modify f).
Proof.
  intros Hf. apply stable_modify. intros s. destruct (Hf s) as [Hm Hfe].
  split; [exact Hm|]. unfold process_fetches. rewrite Hfe. reflexivity.
Qed.

Ltac calm_modify := apply calm_modify; intros ?; split; reflexivity.

Section Calm.
Variable cfg : ScraperConfig.
Variable web : string -> option Page.

Lemma calm_fetch site u :
  site ≠ ProcessFetch → stable calm (Crawler.fetch web site u).
Proof.
  intros Hsite. unfold Crawler.fetch, Crawler.log_fetch.
  apply (stable_bind calm); [|intros; apply (stable_ret calm)].
  apply stable_modify. intros s. split; [reflexivity|].
  rewrite process_fetches_log. unfold is_process_fetch; simpl.
  destruct site; [reflexivity|done|reflexivity].
Qed.

Lemma calm_collect_links links acc : stable calm (Crawler.collect_links cfg links acc).
Proof. unfold Crawler.collect_links. stab. Qed.
Lemma calm_collect_hrefs u hrefs acc : stable calm (Crawler.collect_hrefs cfg u hrefs acc).
Proof. unfold Crawler.collect_hrefs. stab. Qed.
Lemma calm_sort_by_priority urls : stable calm (Crawler.sort_by_priority urls).
Proof. unfold Crawler.sort_by_priority. stab. Qed.
Lemma calm_explore_subdomain u urls : stable calm (Crawler.explore_subdomain cfg web u urls).
Proof.
  unfold Crawler.explore_subdomain. apply (stable_bind calm); [apply calm_fetch; done|].
  intros ?. stab.
Qed.
Lemma calm_seed : stable calm (Crawler.seed cfg web).
Proof.
  unfold Crawler.seed. apply (stable_bind calm); [apply calm_fetch; done|].
  intros ?. stab; try calm_modify; auto using calm_collect_links.
Qed.
Lemma calm_booking_gate url : stable calm (Crawler.booking_gate cfg url).
Proof. unfold Crawler.booking_gate. stab; calm_modify. Qed.
Lemma calm_add_visited n : stable calm (Crawler.add_visited n).
Proof. unfold Crawler.add_visited. calm_modify. Qed.

(** Every entry of [markdown_content] is the text of the page a GET of
    its key returned, and [_process_url] issued that GET. *)
Definition md_inv (s : CrawlState) : Prop :=
  ∀ k t, cs_markdown s !! k = Some t →
    (∃ pg, web k = Some pg ∧ page_text pg = t) ∧ k ∈ process_fetches s.

Definition md_step (s s' : CrawlState) : Prop := md_inv s → md_inv s'.

#[export] Instance md_step_preorder : PreOrder md_step.
Proof. split; [intros s H; exact H | intros s1 s2 s3 H1 H2 H; auto]. Qed.

Lemma calm_md_step s s' : calm s s' → md_step s s'.
Proof. intros [Hm Hf] Hi k t Hk. rewrite Hm in Hk. rewrite Hf. auto. Qed.

Lemma calm_md {A} (m : M A) : stable calm m → stable md_step m.
Proof. intros Hm s. apply calm_md_step, Hm. Qed.

Lemma md_fetch_extract url :
  stable md_step (page <- Crawler.fetch web ProcessFetch url;;
                  match page with
                  | None => ret []
                  | Some pg => Crawler.extract_links cfg url pg
                  end).
Proof.
  intros s. unfold Crawler.fetch, Crawler.log_fetch.
  cbv [bind modify ret].
  set (s3 := {| cs_visited := cs_visited s; cs_fetches := (ProcessFetch, url) :: cs_fetches s |}).
  assert (Hf3 : process_fetches s3 = url :: process_fetches s).
  { subst s3. rewrite process_fetches_log. reflexivity. }
  destruct (web url) as [pg|] eqn:W.
  - unfold Crawler.extract_links. cbv [bind Crawler.store_markdown modify].
    set (s4 := {| cs_visited := cs_visited s3;
                  cs_markdown := <[url:=page_text pg]> (cs_markdown s3);
                  cs_fetches := cs_fetches s3 |}).
    assert (H4 : md_step s s4).
    { intros Hi k t Hk. subst s4. simpl in Hk.
      assert (Hf4 : process_fetches {| cs_visited := cs_visited s3;
                  cs_markdown := <[url:=page_text pg]> (cs_markdown s3);
                  cs_main_links := cs_main_links s3;
                  cs_booking_crawled := cs_booking_crawled s3;
                  cs_booking_seen := cs_booking_seen s3;
                  cs_fetches := cs_fetches s3 |} = url :: process_fetches s)
        by (rewrite <- Hf3; reflexivity).
      rewrite Hf4. destruct (decide (k = url)) as [->|Hne].
      + rewrite lookup_insert_eq in Hk. injection Hk as <-.
        split; [exists pg; split; [exact W|reflexivity]|apply elem_of_cons; left; reflexivity].
      + rewrite lookup_insert_ne in Hk by congruence. destruct (Hi k t Hk) as [Hp Hin].
        split; [exact Hp|apply elem_of_cons; right; exact Hin]. }
    assert (Hrest : stable calm (
      new1 <- Crawler.collect_links cfg (page_language_links pg) [];;
      new2 <- Crawler.collect_links cfg (page_menu_links pg) new1;;
      crawled <- gets cs_booking_crawled;;
      new3 <- (if (crawled <? max_booking_urls cfg)%nat
               then Crawler.collect_links cfg (page_booking_links pg) new2 else ret new2);;
      Crawler.collect_hrefs cfg url (page_hrefs pg) new3)).
    { stab; auto using calm_collect_links, calm_collect_hrefs. }
    specialize (Hrest s4). etrans; [exact H4|apply calm_md_step, Hrest].
  - intros Hi k t Hk. destruct (Hi k t Hk) as [Hp Hin]. split; [exact Hp|].
    simpl st_of. rewrite Hf3. apply elem_of_cons; right; exact Hin.
Qed.

Lemma md_process_url u : stable md_step (Crawler._process_url cfg web u).
Proof.
  unfold Crawler._process_url.
  apply (stable_bind md_step); [apply (stable_lift md_step)|intros n].
  apply (stable_bind md_step); [apply (stable_gets md_step)|intros seen].
  destruct seen; [apply (stable_ret md_step)|].
  apply (stable_bind md_step); [apply calm_md, calm_add_visited|intros _].
  apply (stable_bind md_step); [apply (stable_lift md_step)|intros b].
  apply (stable_bind md_step);
    [destruct b; [apply calm_md, calm_booking_gate|apply (stable_ret md_step)]|intros go].
  destruct (negb go); [apply (stable_ret md_step)|].
  apply (stable_try md_step); [apply md_fetch_extract|apply (stable_ret md_step)].
Qed.

Lemma md_crawl_loop fuel urls : stable md_step (Crawler.crawl_loop cfg web fuel urls).
Proof.
  revert urls. induction fuel as [|fuel IH]; intros urls; simpl; [apply (stable_ret md_step)|].
  destruct urls as [|u0 urls]; [apply (stable_ret md_step)|].
  apply (stable_bind md_step); [apply calm_md, calm_sort_by_priority|intros sorted].
  destruct sorted as [|u rest]; [apply (stable_ret md_step)|].
  apply (stable_bind md_step); [apply (stable_gets md_step)|intros seen].
  destruct seen; [apply IH|].
  apply (stable_bind md_step); [apply md_process_url|intros new].
  apply (stable_bind md_step); [apply (stable_gets md_step)|intros vis]. apply IH.
Qed.

Lemma md_crawl_body fuel : stable md_step (Crawler.crawl_body cfg web fuel).
Proof.
  unfold Crawler.crawl_body.
  apply (stable_bind md_step); [apply calm_md, calm_seed|intros prio].
  apply (stable_bind md_step); [apply md_process_url|intros _].
  apply (stable_bind md_step); [|intros urls; apply md_crawl_loop].
  apply (stable_mfold md_step). intros urls u. cbv beta.
  apply (stable_bind md_step); [apply (stable_gets md_step)|intros seen].
  destruct seen; [apply (stable_ret md_step)|].
  apply (stable_bind md_step); [apply md_process_url|intros _].
  apply (stable_bind md_step); [apply (stable_lift md_step)|intros _].
  destruct (existsb _ _); [|apply (stable_ret md_step)].
  apply (stable_try md_step); [apply calm_md, calm_explore_subdomain|apply (stable_ret md_step)].
Qed.

Lemma md_crawl fuel : md_inv (Crawler.crawl cfg web fuel scraper_init).
Proof.
  apply (md_crawl_body fuel scraper_init). intros k t Hk. simpl in Hk.
  rewrite lookup_empty in Hk. discriminate.
Qed.

End Calm.

Lemma process_fetches_elem s u :
  u ∈ process_fetches s → (ProcessFetch, u) ∈ cs_fetches s.
Proof.
  unfold process_fetches. intros Hu.
  apply list_elem_of_In, in_map_iff in Hu as ([site u'] & Hs & Hin). simpl in Hs. subst u'.
  apply filter_In in Hin as [Hin Hp]. apply list_elem_of_In.
  destruct site; [discriminate|exact Hin|discriminate].
Qed.

End MarkdownFacts.

(** X15: every entry [markdown_content[url]] that [crawl] returns holds
    the text of the page a GET of [url] returned, and that GET is one
    [_process_url] issued: the landing-page pass and the language
    subdomain exploration never add to [markdown_content]. *)
Theorem crawl_markdown_fetched (cfg : ScraperConfig) (web : string -> option Page)
    (fuel : nat) (url text : string) :
  cs_markdown (Crawler.crawl cfg web fuel scraper_init) !! url = Some text →
  (∃ pg, web url = Some pg ∧ page_text pg = text) ∧
  (ProcessFetch, url) ∈ cs_fetches (Crawler.crawl cfg web fuel scraper_init).
Proof.
  intros H. destruct (MarkdownFacts.md_crawl cfg web fuel url text H) as [Hp Hin].
  split; [exact Hp|apply MarkdownFacts.process_fetches_elem, Hin].
Qed.

Lemma crawl_markdown_fetched_witness :
  cs_markdown (Crawler.crawl hotel_cfg home_web 100 scraper_init) !! "https://www.hotel.com"
    = Some "https://www.hotel.com" ∧
  ((∃ pg, home_web "https://www.hotel.com" = Some pg ∧ page_text pg = "https://www.hotel.com") ∧
   (ProcessFetch, "https://www.hotel.com") ∈
     cs_fetches (Crawler.crawl hotel_cfg home_web 100 scraper_init)).
Proof.
  split; [vm_compute; reflexivity|].
  apply crawl_markdown_fetched. vm_compute. reflexivity.
Defined.

(** X17: [normalize_url] ignores the volatile query parameters of a
    booking URL: two URLs that [is_booking_url] classifies as booking
    URLs, with the same scheme, netloc and path, whose '&'-separated query
    parameters agree once the parameters without '=' and those whose
    lower-cased key is lang, language, currency, nsid or sessionid are
    removed, have the same normalisation. *)
Theorem normalize_url_booking_params (u1 u2 : string) (p1 p2 : ParseResult) :
  urlparse u1 = Some p1 → urlparse u2 = Some p2 →
  scheme p1 = scheme p2 → netloc p1 = netloc p2 → path p1 = path p2 →
  Scraper.is_booking_url u1 = Some true → Scraper.is_booking_url u2 = Some true →
  List.filter UrlFacts.kept (UrlFacts.qparams (query p1)) =
  List.filter UrlFacts.kept (UrlFacts.qparams (query p2)) →
  Scraper.normalize_url u1 = Scraper.normalize_url u2.
Proof.
  intros H1 H2 Hs Hn Hp Hb1 Hb2 Hf.
  rewrite (UrlFacts.normalize_booking u1 p1 H1 Hb1), (UrlFacts.normalize_booking u2 p2 H2 Hb2).
  rewrite Hs, Hn, Hp, Hf. reflexivity.
Qed.

Lemma normalize_url_booking_params_witness :
  Scraper.normalize_url "https://booking.hotel.com/r?lang=en&room=1" =
  Scraper.normalize_url "https://booking.hotel.com/r?room=1&currency=EUR".
Proof.
  apply (normalize_url_booking_params
           "https://booking.hotel.com/r?lang=en&room=1"
           "https://booking.hotel.com/r?room=1&currency=EUR"
           {| scheme := "https"; netloc := "booking.hotel.com"; path := "/r";
              params := ""; query := "lang=en&room=1"; fragment := "" |}
           {| scheme := "https"; netloc := "booking.hotel.com"; path := "/r";
              params := ""; query := "room=1&currency=EUR"; fragment := "" |});
    vm_compute; reflexivity.
Defined.
